(** * DNShield cache monitor: a shallow embedding of
      [resources/tests/cache/dnshield_cache_monitor.py]

    The script probes a DNS resolver through [dig], labels each answer by
    its latency, scrapes per-domain cache rules from the output of
    [defaults read], and toggles the [UserCanAdjustCache] preference around
    a comparison run.

    Modelling choices.
    - Python [str] values are [string]s; the builtins the script calls
      ([strip], [split], [in], [int]) are written out in [PyStr] and are
      exact on ASCII text (white space and digits beyond ASCII are outside
      the model). [int] skips the white space of the C locale only and
      rejects more than 4300 digits, as CPython does.
    - Python exceptions are values of [exn]; code that can raise returns an
      [outcome].
    - Latencies and clock readings are Python floats produced by
      [time.time()] differences, or the integer [5000]; they are modelled as
      rationals [Q].  Every finite float is a rational, comparisons of
      floats and integers are exact, and halving a float is exact, so the
      comparisons of the script are the ones of the model.
    - The outside world (preferences database, resolver, clock) is an
      explicit state threaded through the effectful functions. *)

From Stdlib Require Import ZArith QArith Qminmax Qabs Lqa List Ascii String Bool Lia.
From Stdlib Require Import PrimFloat Sorted.
From stdpp Require Import gmap strings.

Import ListNotations.
Local Open Scope bool_scope.

(** ** Python exceptions *)

Inductive exn : Type :=
| TimeoutExpired
| ValueError
| IndexError
| OSError
| StatisticsError
| KeyboardInterrupt.

#[global] Instance exn_eq_dec : EqDecision exn.
Proof. solve_decision. Defined.

Inductive outcome (A : Type) : Type :=
| Returns (a : A)
| Raises (e : exn).

Arguments Returns {A} a.
Arguments Raises {A} e.

Definition obind {A B : Type} (r : outcome A) (k : A -> outcome B) : outcome B :=
  match r with
  | Returns a => k a
  | Raises e => Raises e
  end.

Declare Scope outcome_scope.
Delimit Scope outcome_scope with outcome.
Notation "'let?' x ':=' r 'in' k" := (obind r (fun x => k))
  (at level 10, x name, r at level 100, k at level 200) : outcome_scope.

(** ** The string builtins the script uses *)

Module PyStr.

Local Open Scope string_scope.
Local Open Scope outcome_scope.

(** [str.isspace] on ASCII: TAB to CR, FS to US and the blank. *)
Definition is_space (c : ascii) : bool :=
  let n := nat_of_ascii c in
  ((9 <=? n)%nat && (n <=? 13)%nat) || ((28 <=? n)%nat && (n <=? 32)%nat).

(** Membership of a character in the argument of [strip(chars)]. *)
Fixpoint in_chars (chars : string) (c : ascii) : bool :=
  match chars with
  | EmptyString => false
  | String d chars' => Ascii.eqb c d || in_chars chars' c
  end.

Fixpoint lstrip_with (p : ascii -> bool) (s : string) : string :=
  match s with
  | EmptyString => EmptyString
  | String c s' => if p c then lstrip_with p s' else s
  end.

Fixpoint rstrip_with (p : ascii -> bool) (s : string) : string :=
  match s with
  | EmptyString => EmptyString
  | String c s' =>
      match rstrip_with p s' with
      | EmptyString => if p c then EmptyString else String c EmptyString
      | r => String c r
      end
  end.

Definition strip_with (p : ascii -> bool) (s : string) : string :=
  rstrip_with p (lstrip_with p s).

(** [s.strip()] *)
Definition strip (s : string) : string := strip_with is_space s.

(** [s.strip(chars)] *)
Definition strip_chars (chars s : string) : string :=
  strip_with (in_chars chars) s.

(** [s.split(c)] for a one-character separator: never the empty list. *)
Fixpoint split (c : ascii) (s : string) : list string :=
  match s with
  | EmptyString => [EmptyString]
  | String a s' =>
      if Ascii.eqb a c then EmptyString :: split c s'
      else match split c s' with
           | h :: t => String a h :: t
           | [] => [String a EmptyString]
           end
  end.

(** [s.split(c, 1)]: cut at the first separator only. *)
Fixpoint split1 (c : ascii) (s : string) : list string :=
  match s with
  | EmptyString => [EmptyString]
  | String a s' =>
      if Ascii.eqb a c then [EmptyString; s']
      else match split1 c s' with
           | h :: t => String a h :: t
           | [] => [String a EmptyString]
           end
  end.

(** [l[-1]] on a list of strings. *)
Definition last_item (l : list string) : outcome string :=
  match l with
  | [] => Raises IndexError
  | x :: l' => Returns (List.last l' x)
  end.

(** [l[j]] for a non-negative index. *)
Definition item (l : list string) (j : nat) : outcome string :=
  match nth_error l j with
  | Some x => Returns x
  | None => Raises IndexError
  end.

(** [needle in hay] *)
Fixpoint contains (needle hay : string) : bool :=
  String.prefix needle hay ||
  match hay with
  | EmptyString => false
  | String _ hay' => contains needle hay'
  end.

Definition digit_val (c : ascii) : option Z :=
  let n := nat_of_ascii c in
  if (48 <=? n)%nat && (n <=? 57)%nat then Some (Z.of_nat (n - 48)) else None.

(** Decimal digits, single underscores allowed between two digits. *)
Fixpoint int_digits (acc : Z) (after_digit : bool) (s : string) : option Z :=
  match s with
  | EmptyString => if after_digit then Some acc else None
  | String c s' =>
      if Ascii.eqb c "_"%char then
        if after_digit then int_digits acc false s' else None
      else
        match digit_val c with
        | Some d => int_digits (10 * acc + d) true s'
        | None => None
        end
  end.

(** The white space [int] skips around an ASCII text: TAB to CR and the
    blank, but not FS to US. *)
Definition is_c_space (c : ascii) : bool :=
  let n := nat_of_ascii c in
  ((9 <=? n)%nat && (n <=? 13)%nat) || (n =? 32)%nat.

Fixpoint count_digits (s : string) : nat :=
  match s with
  | EmptyString => O
  | String c s' =>
      match digit_val c with
      | Some _ => S (count_digits s')
      | None => count_digits s'
      end
  end.

(** [sys.int_info.default_max_str_digits] *)
Definition max_str_digits : nat := 4300.

(** [int(s)]: surrounding white space, an optional sign, decimal digits,
    at most [max_str_digits] of them. *)
Definition int (s : string) : outcome Z :=
  let t := strip_with is_c_space s in
  let signed :=
    match t with
    | String "+"%char r => int_digits 0 false r
    | String "-"%char r => option_map Z.opp (int_digits 0 false r)
    | _ => int_digits 0 false t
    end in
  if (max_str_digits <? count_digits t)%nat then Raises ValueError
  else
    match signed with
    | Some z => Returns z
    | None => Raises ValueError
    end.

End PyStr.

(** ** Rationals as latencies *)

Definition Qltb (x y : Q) : bool :=
  match (x ?= y)%Q with
  | Lt => true
  | _ => false
  end.

(** ** Records of the script *)

(** [subprocess.CompletedProcess] with captured text output. *)
Record CompletedProcess : Type := {
  returncode : Z;
  stdout : string;
  stderr : string
}.

(** The dictionary [query_dns] returns. *)
Record Sample : Type := {
  time_ms : Q;
  result : option string;
  error : option string
}.

(** The dictionary [get_cache_rule] fills: only the keys ['action'] and
    ['ttl'] are ever set. *)
Record Rule : Type := {
  action : option string;
  ttl : option Z
}.

Definition empty_rule : Rule := {| action := None; ttl := None |}.

(** The three labels of the specification; the script prints only
    [CACHED] and [FRESH]. *)
Inductive Classification : Type := Cached | Fresh | Error.

Inductive CacheVerdict : Type := Confirmed | NotDetected | Inconsistent.

(** ** Labels and verdict of [test_domain_cache] *)

(** Truth value of [result['result']]: [None] and the empty string are false. *)
Definition truthy_str (o : option string) : bool :=
  match o with
  | Some (String _ _) => true
  | _ => false
  end.

(** The check mark of line 91: set when [result['result']] is true. *)
Definition status_ok (s : Sample) : bool := truthy_str (result s).

(** Line 92: [CACHED] if [result['time_ms'] < 5] else [FRESH]. *)
Definition cache_indicator (s : Sample) : Classification :=
  if Qltb (time_ms s) 5%Q then Cached else Fresh.

(** The branch under [# Detect caching]; [None] when nothing is printed. *)
Definition detect_caching (times : list Q) : option CacheVerdict :=
  if (1 <? List.length times)%nat then
    match times with
    | first_query :: subsequent =>
        if forallb (fun t => Qltb t (first_query * 0.5)%Q) subsequent
        then Some Confirmed
        else if forallb (fun t => Qltb 10%Q t) times
        then Some NotDetected
        else Some Inconsistent
    | [] => None
    end
  else None.

(** ** [get_cache_rule] *)

Definition dquote : ascii := ascii_of_nat 34.
Definition newline : ascii := ascii_of_nat 10.

Module CacheRule.

Local Open Scope string_scope.
Local Open Scope outcome_scope.

(** The condition of line 41, with the short cut of [or]. *)
Definition line_matches (domain line : string) : outcome bool :=
  if PyStr.contains domain line then Returns true
  else
    let? suffix := PyStr.last_item (PyStr.split1 "."%char domain) in
    Returns (PyStr.contains ("*." ++ suffix) line).

Definition set_action (v : string) (r : Rule) : Rule :=
  {| action := Some v; ttl := ttl r |}.

Definition set_ttl (n : Z) (r : Rule) : Rule :=
  {| action := action r; ttl := Some n |}.

(** The characters the two [strip] calls remove: blank, double quote and
    semicolon after ['action']; blank and semicolon after ['ttl']. *)
Definition action_trim : string := String " "%char (String dquote ";").
Definition ttl_trim : string := " ;".

(** Lines 45 to 48 for the line [lj] that [lines[j]] denotes. *)
Definition read_field (rule_info : Rule) (lj : string) : outcome Rule :=
  if PyStr.contains "action" lj then
    let? v := PyStr.item (PyStr.split "="%char lj) 1 in
    Returns (set_action (PyStr.strip_chars action_trim v) rule_info)
  else if PyStr.contains "ttl" lj then
    let? v := PyStr.item (PyStr.split "="%char lj) 1 in
    let? n := PyStr.int (PyStr.strip_chars ttl_trim v) in
    Returns (set_ttl n rule_info)
  else Returns rule_info.

(** Body of the inner loop at index [j]. *)
Definition inner_body (lines : list string) (rule_info : Rule) (j : nat)
  : outcome Rule :=
  let? lj := PyStr.item lines j in
  read_field rule_info lj.

(** A [for] loop over a list of indices, threading the loop state. *)
Fixpoint for_each {S : Type} (body : S -> nat -> outcome S) (js : list nat) (s : S)
  : outcome S :=
  match js with
  | [] => Returns s
  | j :: js' => let? s' := body s j in for_each body js' s'
  end.

(** [range(a, b)] *)
Definition range (a b : nat) : list nat := seq a (b - a).

(** Lines 43 to 49: the rule found at index [i]. *)
Definition extract_rule (lines : list string) (i : nat) : outcome Rule :=
  for_each (inner_body lines)
           (range i (Nat.min (i + 5) (List.length lines))) empty_rule.

(** The [for i, line in enumerate(lines)] loop from index [i] on;
    [Returns None] when the loop ends without a [return]. *)
Fixpoint scan (domain : string) (lines : list string) (i : nat) (rest : list string)
  : outcome (option Rule) :=
  match rest with
  | [] => Returns None
  | line :: rest' =>
      let? hit := line_matches domain line in
      if hit then let? rule_info := extract_rule lines i in Returns (Some rule_info)
      else scan domain lines (S i) rest'
  end.

(** The body of the [try] block. *)
Definition get_cache_rule_try (run : outcome CompletedProcess) (domain : string)
  : outcome (option Rule) :=
  let? p := run in
  if (returncode p =? 0)%Z then
    let lines := PyStr.split newline (PyStr.strip (stdout p)) in
    scan domain lines 0 lines
  else Returns None.

(** [get_cache_rule], given what [defaults read ... DomainCacheRules] did:
    the bare [except] swallows every exception and [None] is returned. *)
Definition get_cache_rule (run : outcome CompletedProcess) (domain : string)
  : outcome (option Rule) :=
  match get_cache_rule_try run domain with
  | Returns (Some rule_info) => Returns (Some rule_info)
  | Returns None => Returns None
  | Raises _ => Returns None
  end.

(** Truth value of the returned object: [None] and the empty dictionary
    are false. *)
Definition rule_truthy (rule : option Rule) : bool :=
  match rule with
  | Some r => match action r, ttl r with
              | None, None => false
              | _, _ => true
              end
  | None => false
  end.

(** What [test_domain_cache] prints about the rule (lines 78 to 81). *)
Inductive RuleLine : Type :=
| RuleShown (r : Rule)
| RuleDefault300.

Definition rule_line (rule : option Rule) : RuleLine :=
  match rule with
  | Some r => if rule_truthy rule then RuleShown r else RuleDefault300
  | None => RuleDefault300
  end.

(** [rule.get('ttl', 300) if rule else 300] (line 173). *)
Definition ttl_for_monitor (rule : option Rule) : Z :=
  if rule_truthy rule then
    match rule with
    | Some r => match ttl r with Some n => n | None => 300%Z end
    | None => 300%Z
    end
  else 300%Z.

End CacheRule.

(** ** Statistics of [test_domain_cache] *)

Record Stats : Type := {
  min_time : Q;
  max_time : Q;
  avg_time : Q;
  median_time : Q
}.

Fixpoint insert_sorted (x : Q) (l : list Q) : list Q :=
  match l with
  | [] => [x]
  | y :: l' => if Qle_bool x y then x :: l else y :: insert_sorted x l'
  end.

Definition sorted (l : list Q) : list Q := fold_right insert_sorted [] l.

(** [statistics.median] of a non-empty list. *)
Definition median (data : list Q) : Q :=
  let d := sorted data in
  let n := List.length d in
  if Nat.odd n then nth (n / 2) d 0%Q
  else ((nth (n / 2 - 1) d 0 + nth (n / 2) d 0) / 2)%Q.

(** Lines 101 to 104: [min] of an empty list raises [ValueError]. *)
Definition statistics_of (times : list Q) : outcome Stats :=
  match times with
  | [] => Raises ValueError
  | t :: ts =>
      Returns {| min_time := fold_right Qmin t ts;
                 max_time := fold_right Qmax t ts;
                 avg_time := (fold_right Qplus 0 times
                              / inject_Z (Z.of_nat (List.length times)))%Q;
                 median_time := median times |}
  end.

(** ** The outside world *)

(** What one invocation of [dig] through [subprocess.run] does: how long
    the call lasts and whether it returns or raises. *)
Record DigRun : Type := {
  took : Q;
  ended : outcome CompletedProcess
}.

Inductive Event : Type :=
| Probe (domain : string)
| Sleep (seconds : Q)
| WritePref (key value : string).

Record World : Type := {
  prefs : gmap string string;  (* com.dnshield.app, as [defaults read] prints it *)
  dig : nat -> DigRun;         (* the k-th invocation of dig *)
  probes : nat;                (* invocations of dig so far *)
  now : Q;                     (* [time.time()], in seconds *)
  journal : list Event         (* probes, sleeps and writes, latest first *)
}.

Definition M (A : Type) : Type := World -> outcome A * World.

Definition ret {A : Type} (a : A) : M A := fun w => (Returns a, w).

Definition bind {A B : Type} (m : M A) (k : A -> M B) : M B :=
  fun w =>
    match m w with
    | (Returns a, w') => k a w'
    | (Raises e, w') => (Raises e, w')
    end.

Definition lift {A : Type} (r : outcome A) : M A := fun w => (r, w).

(** [try: body / except E: handler] for the one exception class [E]. *)
Definition try_except {A : Type} (body : M A) (E : exn) (handler : M A) : M A :=
  fun w =>
    match body w with
    | (Raises e, w') =>
        if decide (e = E) then handler w' else (Raises e, w')
    | r => r
    end.

Declare Scope io_scope.
Delimit Scope io_scope with io.
Notation "'let!' x ':=' m 'in' k" := (bind m (fun x => k))
  (at level 10, x name, m at level 100, k at level 200) : io_scope.
Notation "m ';;' k" := (bind m (fun _ => k))
  (at level 100, k at level 200, right associativity) : io_scope.

Definition time_time : M Q := fun w => (Returns (now w), w).

(** [time.sleep(seconds)]: a negative length raises [ValueError] before
    any time passes. *)
Definition time_sleep (seconds : Q) : M unit :=
  fun w =>
    if Qltb seconds 0 then (Raises ValueError, w)
    else
      (Returns tt,
       {| prefs := prefs w; dig := dig w; probes := probes w;
          now := (now w + seconds)%Q;
          journal := Sleep seconds :: journal w |}).

(** [subprocess.run(['dig', ...], timeout=5)] *)
Definition run_dig (domain : string) : M CompletedProcess :=
  fun w =>
    let r := dig w (probes w) in
    (ended r,
     {| prefs := prefs w; dig := dig w; probes := S (probes w);
        now := (now w + took r)%Q;
        journal := Probe domain :: journal w |}).

Definition missing_key_message : string :=
  "The domain/default pair does not exist"%string.

(** [defaults read com.dnshield.app key] *)
Definition defaults_read (key : string) : M CompletedProcess :=
  fun w =>
    (Returns
       match prefs w !! key with
       | Some v => {| returncode := 0; stdout := String.append v (String newline EmptyString);
                      stderr := EmptyString |}
       | None => {| returncode := 1; stdout := EmptyString;
                    stderr := missing_key_message |}
       end, w).

(** [defaults write com.dnshield.app key -bool YES|NO]; a boolean reads
    back as [1] or [0]. *)
Definition defaults_write_bool (key : string) (b : bool) : M CompletedProcess :=
  fun w =>
    let v := if b then "1"%string else "0"%string in
    (Returns {| returncode := 0; stdout := EmptyString; stderr := EmptyString |},
     {| prefs := <[key := v]> (prefs w); dig := dig w; probes := probes w;
        now := now w;
        journal := WritePref key v :: journal w |}).

(** ** The functions of the script *)

Module Script.

Local Open Scope io_scope.

Definition timeout_sample : Sample :=
  {| time_ms := 5000%Q; result := None; error := Some "Timeout"%string |}.

Definition query_dns (domain : string) : M Sample :=
  let! start := time_time in
  try_except
    (let! p := run_dig domain in
     let! finish := time_time in
     let response_time := ((finish - start) * 1000)%Q in
     ret {| time_ms := response_time;
            result := Some (PyStr.strip (stdout p));
            error := if (returncode p =? 0)%Z then None
                     else Some (PyStr.strip (stderr p)) |})
    TimeoutExpired
    (ret timeout_sample).

Definition get_cache_rule (domain : string) : M (option Rule) :=
  fun w =>
    (CacheRule.get_cache_rule (fst (defaults_read "DomainCacheRules" w)) domain, w).

(** One printed line [Query i: t ms [indicator] mark]. *)
Record QueryLine : Type := {
  number : nat;
  sample : Sample;
  indicator : Classification;
  answered : bool
}.

Record Report : Type := {
  cache_enabled : string;
  rule_report : CacheRule.RuleLine;
  queries : list QueryLine;
  times : list Q;
  stats : Stats;
  verdict : option CacheVerdict
}.

(** The loop of lines 87 to 97 over the remaining indices [js]. *)
Fixpoint query_loop (domain : string) (iterations : nat) (delay : Q)
  (js : list nat) (times : list Q) (printed : list QueryLine)
  : M (list Q * list QueryLine) :=
  match js with
  | [] => ret (times, printed)
  | i :: js' =>
      let! r := query_dns domain in
      let times' := times ++ [time_ms r] in
      let line := {| number := i + 1; sample := r;
                     indicator := cache_indicator r;
                     answered := status_ok r |} in
      let! _ := (if (Z.of_nat i <? Z.of_nat iterations - 1)%Z
                 then time_sleep delay else ret tt) in
      query_loop domain iterations delay js' times' (printed ++ [line])
  end.

Definition test_domain_cache (domain : string) (iterations : nat) (delay : Q)
  : M Report :=
  let! managed_result := defaults_read "EnableDNSCache" in
  let! enabled :=
    (if (returncode managed_result =? 0)%Z
     then ret (String.append (PyStr.strip (stdout managed_result)) " (managed)")
     else
       let! user_result := defaults_read "UserCanAdjustCache" in
       ret (if (returncode user_result =? 0)%Z
            then PyStr.strip (stdout user_result) else "0"%string)) in
  let! rule := get_cache_rule domain in
  let! tp := query_loop domain iterations delay (CacheRule.range 0 iterations) [] [] in
  let! st := lift (statistics_of (fst tp)) in
  ret {| cache_enabled := enabled;
         rule_report := CacheRule.rule_line rule;
         queries := snd tp;
         times := fst tp;
         stats := st;
         verdict := detect_caching (fst tp) |}.

(** The window test of line 144. *)
Definition near_expected_expiry (elapsed : Q) (expected_ttl : Z) : bool :=
  Qltb (inject_Z expected_ttl - 5)%Q elapsed
  && Qltb elapsed (inject_Z expected_ttl + 5)%Q.

(** One pass of the monitoring loop, as printed. *)
Record Observation : Type := {
  elapsed_since_start : Q;
  observed : Sample;
  status : Classification;
  expiry_reported : bool
}.

Record MonitorSummary : Type := {
  initial : Sample;
  observations : list Observation;
  cache_hits : nat;
  query_count : nat
}.

(** Lines 135 to 149: the body of the [while] loop. *)
Definition monitor_body (domain : string) (expected_ttl : Z) (start_time : Q)
  (sm : MonitorSummary) : M MonitorSummary :=
  let! t := time_time in
  let elapsed := (t - start_time)%Q in
  let! r := query_dns domain in
  let obs :=
    if Qltb (time_ms r) 5%Q then
      {| elapsed_since_start := elapsed; observed := r; status := Cached;
         expiry_reported := false |}
    else
      {| elapsed_since_start := elapsed; observed := r; status := Fresh;
         expiry_reported := near_expected_expiry elapsed expected_ttl |} in
  let! _ := time_sleep 10 in
  ret {| initial := initial sm;
         observations := observations sm ++ [obs];
         cache_hits := (if Qltb (time_ms r) 5%Q then S (cache_hits sm)
                        else cache_hits sm);
         query_count := S (query_count sm) |}.

(** The [while] loop of line 134, unrolled at most [fuel] times; [None]
    when the loop is still running after that. *)
Fixpoint monitor_loop (fuel : nat) (domain : string) (expected_ttl : Z)
  (test_duration start_time : Q) (sm : MonitorSummary)
  : M (option MonitorSummary) :=
  match fuel with
  | O => ret None
  | S fuel' =>
      let! t := time_time in
      if Qltb (t - start_time)%Q test_duration then
        let! sm' := monitor_body domain expected_ttl start_time sm in
        monitor_loop fuel' domain expected_ttl test_duration start_time sm'
      else ret (Some sm)
  end.

Definition monitor_cache_ttl (fuel : nat) (domain : string) (expected_ttl : Z)
  (test_duration : option Q) : M (option MonitorSummary) :=
  let duration :=
    match test_duration with
    | None => (inject_Z expected_ttl + 60)%Q
    | Some d => d
    end in
  let! start_time := time_time in
  let! first := query_dns domain in
  monitor_loop fuel domain expected_ttl duration start_time
    {| initial := first; observations := []; cache_hits := 0; query_count := 0 |}.

(** The [compare] branch of [main], lines 176 to 188. *)
Definition compare (domain : string) : M (Report * Report) :=
  let! with_cache := test_domain_cache domain 5 0.1 in
  let! _ := defaults_write_bool "UserCanAdjustCache" false in
  let! _ := time_sleep 2 in
  let! without_cache := test_domain_cache domain 5 0.1 in
  let! _ := defaults_write_bool "UserCanAdjustCache" true in
  ret (with_cache, without_cache).

Inductive MainOutput : Type :=
| Usage
| Tested (r : Report)
| Monitored (expected_ttl : Z) (sm : option MonitorSummary)
| Compared (with_cache without_cache : Report)
| NoOutput.

Definition main (fuel : nat) (argv : list string) : M MainOutput :=
  match argv with
  | _ :: domain :: more =>
      let command := match more with c :: _ => c | [] => "test"%string end in
      if String.eqb command "test" then
        let! r := test_domain_cache domain 10 0.1 in ret (Tested r)
      else if String.eqb command "ttl" then
        let! rule := get_cache_rule domain in
        let ttl := CacheRule.ttl_for_monitor rule in
        let! sm := monitor_cache_ttl fuel domain ttl None in
        ret (Monitored ttl sm)
      else if String.eqb command "compare" then
        let! rr := compare domain in ret (Compared (fst rr) (snd rr))
      else ret NoOutput
  | _ => ret Usage
  end.

End Script.

(** ** Fixtures *)

Definition exited (code : Z) (out : string) : outcome CompletedProcess :=
  Returns {| returncode := code; stdout := out; stderr := EmptyString |}.

Definition nl : string := String newline EmptyString.
Definition dq : string := String dquote EmptyString.

(** A rules dump with one block for the wild card of example.com. *)
Definition example_rules : string :=
  (dq ++ "*.example.com" ++ dq ++ " = {" ++ nl ++
   "    action = " ++ dq ++ "block" ++ dq ++ ";" ++ nl ++
   "    ttl = 120;" ++ nl ++
   "};" ++ nl)%string.

(** The lines of [example_rules]. *)
Definition example_first_line : string :=
  (dq ++ "*.example.com" ++ dq ++ " = {")%string.

Definition example_other_lines : list string :=
  [ ("    action = " ++ dq ++ "block" ++ dq ++ ";")%string;
    "    ttl = 120;"%string;
    "};"%string ].

(** The same block with the TTL written as a quoted string. *)
Definition quoted_ttl_rules : string :=
  (dq ++ "*.example.com" ++ dq ++ " = {" ++ nl ++
   "    action = " ++ dq ++ "block" ++ dq ++ ";" ++ nl ++
   "    ttl = " ++ dq ++ "120" ++ dq ++ ";" ++ nl ++
   "};" ++ nl)%string.

(** The lines of [quoted_ttl_rules] after the first. *)
Definition quoted_ttl_line : string :=
  ("    ttl = " ++ dq ++ "120" ++ dq ++ ";")%string.

Definition quoted_ttl_other_lines : list string :=
  [ ("    action = " ++ dq ++ "block" ++ dq ++ ";")%string;
    quoted_ttl_line;
    "};"%string ].

(** A block that names the domain but sets neither field. *)
Definition bare_rules : string :=
  (dq ++ "example.com" ++ dq ++ " = {" ++ nl ++
   "    enabled = 1;" ++ nl ++
   "};" ++ nl)%string.

(** A [dig] that answers after [ms] milliseconds. *)
Definition quick (ms : Q) : DigRun :=
  {| took := (ms / 1000)%Q; ended := exited 0 "93.184.216.34" |}.

(** A [dig] that is killed by the five second timeout. *)
Definition hangs : DigRun :=
  {| took := 5; ended := Raises TimeoutExpired |}.

(** A [dig] interrupted from the keyboard. *)
Definition interrupted : DigRun :=
  {| took := 0; ended := Raises KeyboardInterrupt |}.

Definition flag_key : string := "UserCanAdjustCache".

Definition world0 (flag : option string) (d : nat -> DigRun) : World :=
  {| prefs := match flag with
              | Some v => {[ flag_key := v ]}
              | None => ∅
              end;
     dig := d; probes := 0; now := 0; journal := [] |}.

Definition flag_of (w : World) : option string := prefs w !! flag_key.

(** A world whose preferences hold only the rules dump [text]. *)
Definition world_with_rules (text : string) : World :=
  {| prefs := {[ "DomainCacheRules"%string := text ]};
     dig := fun _ => quick 1; probes := 0; now := 0; journal := [] |}.

(** The command line of a comparison run. *)
Definition compare_argv : list string :=
  [ "dnshield_cache_monitor.py"; "example.com"; "compare" ]%string.

(** The resolver answers, except that the eighth probe (the third of the
    second pass) is interrupted from the keyboard. *)
Definition interrupted_at_eighth (k : nat) : DigRun :=
  if (k =? 7)%nat then interrupted else quick 1.


(** ** The properties to be checked, stated over the embedding *)

(** Every sample after the first is below half of the first. *)
Definition later_below_half_first (times : list Q) : Prop :=
  forall i, (0 < i < List.length times)%nat ->
            (nth i times 0 < 0.5 * nth 0 times 0)%Q.

(** Every sample, the first included, is above 10 ms. *)
Definition all_above_10 (times : list Q) : Prop :=
  forall i, (i < List.length times)%nat -> (10 < nth i times 0)%Q.

(** The error text of a sample is present and not empty. *)
Definition has_error_text (s : Sample) : Prop :=
  exists c t, error s = Some (String c t).

(** The fields read off the lines of a window, in order. *)
Fixpoint fields_of_window (window : list string) (rule_info : Rule) : outcome Rule :=
  match window with
  | [] => Returns rule_info
  | line :: window' =>
      match CacheRule.read_field rule_info line with
      | Returns r => fields_of_window window' r
      | Raises e => Raises e
      end
  end.

(** A line that lines 45 to 48 read without raising: it names neither
    field, or it has an [=] and, where it names [ttl] and not [action], a
    text after it that [int] accepts. *)
Definition line_parses (line : string) : bool :=
  match CacheRule.read_field empty_rule line with
  | Returns _ => true
  | Raises _ => false
  end.

(** The object the caller receives for a window: the fields, or [None]
    when reading them raised. *)
Definition rule_of_window (window : list string) : option Rule :=
  match fields_of_window window empty_rule with
  | Returns r => Some r
  | Raises _ => None
  end.

(** [needle] occurs in [hay]. *)
Definition occurs_in (needle hay : string) : Prop :=
  exists pre post, hay = (pre ++ needle ++ post)%string.

(** ** What one probe leaves behind *)

(** The world after one invocation of [dig]. *)
Definition after_dig (domain : string) (w : World) : World :=
  {| prefs := prefs w; dig := dig w; probes := S (probes w);
     now := (now w + took (dig w (probes w)))%Q;
     journal := Probe domain :: journal w |}.

(** The world after a sleep of a non-negative length. *)
Definition after_sleep (seconds : Q) (w : World) : World :=
  {| prefs := prefs w; dig := dig w; probes := probes w;
     now := (now w + seconds)%Q;
     journal := Sleep seconds :: journal w |}.

(** The sample [query_dns] builds for a run that started at [start], or
    the exception it lets through. *)
Definition sample_of_run (start : Q) (r : DigRun) : outcome Sample :=
  match ended r with
  | Returns p =>
      Returns {| time_ms := ((start + took r - start) * 1000)%Q;
                 result := Some (PyStr.strip (stdout p));
                 error := if (returncode p =? 0)%Z then None
                          else Some (PyStr.strip (stderr p)) |}
  | Raises TimeoutExpired => Returns Script.timeout_sample
  | Raises e => Raises e
  end.

(** The sample [s] is the record of the run [r]. *)
Definition records (r : DigRun) (s : Sample) : Prop :=
  exists start, sample_of_run start r = Returns s.

(** A run that [query_dns] survives: [dig] exits, with any status, or is
    killed by the timeout. Anything else (the interpreter interrupted, the
    program missing) is raised through the caller. *)
Definition undisturbed (r : DigRun) : bool :=
  match ended r with
  | Returns _ => true
  | Raises TimeoutExpired => true
  | Raises _ => false
  end.


(** [n] probes in time order: a sleep between two probes, none at the end. *)
Fixpoint probe_schedule (domain : string) (delay : Q) (n : nat) : list Event :=
  match n with
  | O => []
  | S n' =>
      match n' with
      | O => [Probe domain]
      | S _ => Probe domain :: Sleep delay :: probe_schedule domain delay n'
      end
  end.

Definition is_probe (e : Event) : bool :=
  match e with Probe _ => true | _ => false end.

Definition is_sleep (e : Event) : bool :=
  match e with Sleep _ => true | _ => false end.

(** What [test_domain_cache] prints after [Cache Enabled:]. *)
Definition cache_enabled_text (w : World) : string :=
  match prefs w !! "EnableDNSCache"%string with
  | Some v => String.append (PyStr.strip (String.append v nl)) " (managed)"
  | None =>
      match prefs w !! "UserCanAdjustCache"%string with
      | Some v => PyStr.strip (String.append v nl)
      | None => "0"%string
      end
  end.

(** The rule [get_cache_rule] finds in the preferences of [w]. *)
Definition stored_rule (domain : string) (w : World) : option Rule :=
  match CacheRule.get_cache_rule (fst (defaults_read "DomainCacheRules" w)) domain with
  | Returns r => r
  | Raises _ => None
  end.

(** What the loop of the monitor prints for an observation agrees with the
    label of its sample and with the window test of its elapsed time. *)
Definition observation_ok (expected_ttl : Z) (obs : Script.Observation) : Prop :=
  Script.status obs = cache_indicator (Script.observed obs)
  /\ Script.expiry_reported obs =
       match Script.status obs with
       | Fresh => Script.near_expected_expiry
                    (Script.elapsed_since_start obs) expected_ttl
       | _ => false
       end.

(** The test of line 110 on binary64 floats, the numbers Python computes
    with; used to cross-check the rational model on the latencies of a
    scenario. *)
Definition below_half_binary64 (first_query : float) (subsequent : list float) : bool :=
  forallb (fun t => PrimFloat.ltb t (PrimFloat.mul first_query 0.5%float)) subsequent.

(** A resolver for a monitoring run: every probe answers after 8 ms. *)
Definition steady (k : nat) : DigRun := quick 8.

(** ** Further fixtures and predicates *)

(** The lines [get_cache_rule] scans in what [defaults read] printed. *)
Definition dump_lines (p : CompletedProcess) : list string :=
  PyStr.split newline (PyStr.strip (stdout p)).

(** A dump that was read. *)
Definition dump (text : string) : CompletedProcess :=
  {| returncode := 0; stdout := text; stderr := EmptyString |}.

(** [example_rules] with a comment line before the block and six more lines
    after its TTL, the last of which names an action. *)
Definition padded_rules : string :=
  ("// rules" ++ nl ++
   dq ++ "*.example.com" ++ dq ++ " = {" ++ nl ++
   "    action = " ++ dq ++ "block" ++ dq ++ ";" ++ nl ++
   "    ttl = 120;" ++ nl ++
   "};" ++ nl ++
   "//" ++ nl ++
   "action = allow;" ++ nl)%string.

(** [example_rules] followed by two lines, the second of which names a
    TTL. *)
Definition trailing_rules : string :=
  (dq ++ "*.example.com" ++ dq ++ " = {" ++ nl ++
   "    action = " ++ dq ++ "block" ++ dq ++ ";" ++ nl ++
   "    ttl = 120;" ++ nl ++
   "};" ++ nl ++
   "//" ++ nl ++
   "ttl = 5;" ++ nl)%string.

(** A window in which two lines name the action. *)
Definition twice_named_window : list string :=
  [ "action = allow;"; "ttl = 60;"; "action = block;"; "};" ]%string.

(** [c.join(l)] *)
Fixpoint join (c : ascii) (l : list string) : string :=
  match l with
  | [] => EmptyString
  | [x] => x
  | x :: l' => (x ++ String c (join c l'))%string
  end.

(** The character [c] does not occur in [s]. *)
Fixpoint free_of (c : ascii) (s : string) : bool :=
  match s with
  | EmptyString => true
  | String a s' => negb (Ascii.eqb a c) && free_of c s'
  end.

(** The world [w'] is the world [w] after some probes and sleeps and
    nothing else: same preferences, same resolver, a journal extended by
    probes and sleeps only, and one invocation of [dig] per probe. *)
Definition only_probes_and_sleeps (w w' : World) : Prop :=
  prefs w' = prefs w
  /\ dig w' = dig w
  /\ exists new,
       journal w' = new ++ journal w
       /\ Forall (fun e => is_probe e || is_sleep e = true) new
       /\ probes w' = (probes w + List.length (List.filter is_probe new))%nat.

(** A printed line agrees with its sample. *)
Definition line_agrees (line : Script.QueryLine) : Prop :=
  Script.indicator line = cache_indicator (Script.sample line)
  /\ Script.answered line = status_ok (Script.sample line).

(** An observation of the monitor labelled [CACHED]. *)
Definition is_cached (obs : Script.Observation) : bool :=
  match Script.status obs with
  | Cached => true
  | _ => false
  end.

(** Two observations at least ten seconds apart, in this order. *)
Definition ten_seconds_apart (a b : Script.Observation) : Prop :=
  (Script.elapsed_since_start a + 10 <= Script.elapsed_since_start b)%Q.

(** The duration [monitor_cache_ttl] uses. *)
Definition effective_duration (expected_ttl : Z) (test_duration : option Q) : Q :=
  match test_duration with
  | None => (inject_Z expected_ttl + 60)%Q
  | Some d => d
  end.

(** The observation the loop of the monitor records for the sample [r]
    taken [elapsed] seconds after the start. *)
Definition observe (expected_ttl : Z) (elapsed : Q) (r : Sample)
  : Script.Observation :=
  if Qltb (time_ms r) 5%Q then
    {| Script.elapsed_since_start := elapsed; Script.observed := r;
       Script.status := Cached; Script.expiry_reported := false |}
  else
    {| Script.elapsed_since_start := elapsed; Script.observed := r;
       Script.status := Fresh;
       Script.expiry_reported := Script.near_expected_expiry elapsed expected_ttl |}.


(** [dig] exits with status 9 after 20 ms and a message on its error
    stream. *)
Definition refused : DigRun :=
  {| took := 0.02;
     ended := Returns {| returncode := 9; stdout := EmptyString;
                         stderr := ("no servers could be reached" ++ nl)%string |} |}.

(** What a comparison run does, in time order: five probes, the flag
    written as [0], a sleep of two seconds, five probes, the flag written as
    [1]. *)
Definition compare_schedule (domain : string) : list Event :=
  probe_schedule domain 0.1 5
  ++ [WritePref "UserCanAdjustCache" "0"; Sleep 2]
  ++ probe_schedule domain 0.1 5
  ++ [WritePref "UserCanAdjustCache" "1"].

(** What the second pass of a comparison run prints after
    [Cache Enabled:]. *)
Definition second_pass_text (w : World) : string :=
  match prefs w !! "EnableDNSCache"%string with
  | Some v => String.append (PyStr.strip (String.append v nl)) " (managed)"
  | None => "0"%string
  end.

(** What [subprocess.run] returns for a [defaults write] that went well. *)
Definition written : CompletedProcess :=
  {| returncode := 0; stdout := EmptyString; stderr := EmptyString |}.

(** A resolver whose first three runs take 3, 3 and 2 seconds and whose
    later runs answer within 1 ms. *)
Definition warming_up (k : nat) : DigRun :=
  match k with
  | 0%nat | 1%nat => quick 3000
  | 2%nat => quick 2000
  | _ => quick 1
  end.

(** A world 28 seconds after its clock was at 0, with a resolver that
    answers within 1 ms, and a summary without observations. *)
Definition late_world : World :=
  {| prefs := ∅; dig := fun _ => quick 1; probes := 0; now := 28; journal := [] |}.

Definition no_observations : Script.MonitorSummary :=
  {| Script.initial := Script.timeout_sample; Script.observations := [];
     Script.cache_hits := 0; Script.query_count := 0 |}.

(** ** Comparisons on latencies *)

Lemma Qltb_lt (x y : Q) : Qltb x y = true <-> (x < y)%Q.
Proof.
  unfold Qltb. rewrite Qlt_alt.
  destruct (x ?= y)%Q; split; congruence.
Qed.

Lemma Qltb_ge (x y : Q) : Qltb x y = false <-> (y <= x)%Q.
Proof.
  split.
  - intros H. apply Qnot_lt_le. intros L. apply Qltb_lt in L. congruence.
  - intros H. destruct (Qltb x y) eqn:E; [|reflexivity].
    apply Qltb_lt in E. exfalso. exact (Qle_not_lt _ _ H E).
Qed.

Lemma forallb_nth (p : Q -> bool) (l : list Q) :
  forallb p l = true <-> forall i, (i < List.length l)%nat -> p (nth i l 0%Q) = true.
Proof.
  induction l as [|a l IH]; simpl.
  - split; [intros _ i Hi; lia | reflexivity].
  - rewrite andb_true_iff, IH. split.
    + intros [Ha Hl] [|i] Hi; [exact Ha | apply Hl; lia].
    + intros H. split; [apply (H 0%nat); lia | intros i Hi; apply (H (S i)); lia].
Qed.

(** ** The labels *)

Lemma cache_indicator_cached (s : Sample) :
  cache_indicator s = Cached <-> (time_ms s < 5)%Q.
Proof.
  unfold cache_indicator. destruct (Qltb (time_ms s) 5) eqn:E.
  - apply Qltb_lt in E. tauto.
  - apply Qltb_ge in E. split; [discriminate|].
    intros L. exfalso. exact (Qle_not_lt _ _ E L).
Qed.

Lemma cache_indicator_fresh (s : Sample) :
  cache_indicator s = Fresh <-> (5 <= time_ms s)%Q.
Proof.
  unfold cache_indicator. destruct (Qltb (time_ms s) 5) eqn:E.
  - apply Qltb_lt in E. split; [discriminate|].
    intros L. exfalso. exact (Qle_not_lt _ _ L E).
  - apply Qltb_ge in E. tauto.
Qed.

Lemma cache_indicator_never_error (s : Sample) : cache_indicator s <> Error.
Proof. unfold cache_indicator. destruct (Qltb _ _); discriminate. Qed.

(** ** The verdict *)

Lemma subsequent_below_half (first_query : Q) (subsequent : list Q) :
  forallb (fun t => Qltb t (first_query * 0.5)%Q) subsequent = true
  <-> later_below_half_first (first_query :: subsequent).
Proof.
  rewrite forallb_nth. unfold later_below_half_first. simpl. split.
  - intros H [|i] Hi; [lia|]. specialize (H i ltac:(lia)).
    apply Qltb_lt in H. lra.
  - intros H i Hi. apply Qltb_lt. specialize (H (S i) ltac:(lia)).
    simpl in H. lra.
Qed.

Lemma times_all_above_10 (times : list Q) :
  forallb (fun t => Qltb 10%Q t) times = true <-> all_above_10 times.
Proof.
  rewrite forallb_nth. unfold all_above_10.
  split; intros H i Hi; apply Qltb_lt, H, Hi.
Qed.

Lemma detect_caching_short (times : list Q) :
  (List.length times <= 1)%nat -> detect_caching times = None.
Proof.
  intros H. unfold detect_caching.
  destruct (1 <? List.length times)%nat eqn:E; [|reflexivity].
  apply Nat.ltb_lt in E. lia.
Qed.

Lemma detect_caching_long (first_query : Q) (subsequent : list Q) :
  subsequent <> [] ->
  detect_caching (first_query :: subsequent) =
    if forallb (fun t => Qltb t (first_query * 0.5)%Q) subsequent
    then Some Confirmed
    else if forallb (fun t => Qltb 10%Q t) (first_query :: subsequent)
    then Some NotDetected
    else Some Inconsistent.
Proof.
  intros H. unfold detect_caching.
  destruct subsequent as [|a l]; [congruence|]. reflexivity.
Qed.

(** The runs 12, 15, 11, 14 ms and 1, 20, 2, 18 ms, and a run of one sample. *)
Example scenario_B : detect_caching [12; 15; 11; 14]%Q = Some NotDetected.
Proof. reflexivity. Qed.

Example scenario_C : detect_caching [1; 20; 2; 18]%Q = Some Inconsistent.
Proof. reflexivity. Qed.

Example one_sample_no_verdict : detect_caching [3]%Q = None.
Proof. reflexivity. Qed.

(** ** The monitoring loop records what the labels say *)

Lemma monitor_body_observation (domain : string) (expected_ttl : Z)
  (start_time : Q) (sm : Script.MonitorSummary) (w : World) :
  match fst (Script.monitor_body domain expected_ttl start_time sm w) with
  | Returns sm' =>
      exists obs,
        Script.observations sm' = Script.observations sm ++ [obs]
        /\ Script.elapsed_since_start obs = (now w - start_time)%Q
        /\ Script.status obs = cache_indicator (Script.observed obs)
        /\ Script.expiry_reported obs =
             match Script.status obs with
             | Fresh => Script.near_expected_expiry
                          (Script.elapsed_since_start obs) expected_ttl
             | _ => false
             end
  | Raises _ => True
  end.
Proof.
  unfold Script.monitor_body, bind, time_time. simpl.
  destruct (Script.query_dns domain w) as [[r|e] w1]; simpl; [|exact I].
  eexists. split; [reflexivity|].
  unfold cache_indicator.
  destruct (Qltb (time_ms r) 5) eqn:E; simpl; rewrite ?E; auto.
Qed.

(** ** Claims about the verdict *)

(** C3, counterexample: in the run 30, 12, 11, 14 ms every sample is above
    10 ms, and the verdict is [Confirmed], not [NotDetected]. *)
Lemma all_above_10_yet_confirmed :
  all_above_10 [30; 12; 11; 14]%Q
  /\ detect_caching [30; 12; 11; 14]%Q = Some Confirmed
  /\ detect_caching [30; 12; 11; 14]%Q <> Some NotDetected.
Proof.
  split; [|split; [reflexivity | discriminate]].
  apply times_all_above_10. reflexivity.
Qed.

(** C3, as amended: the verdict is [NotDetected] if and only if the run has
    more than one sample, every sample (the first included) is above 10 ms,
    and the test for [Confirmed] fails, that is, not every later sample is
    below half of the first. *)
Theorem not_detected_iff (times : list Q) :
  detect_caching times = Some NotDetected
  <-> (1 < List.length times)%nat
      /\ all_above_10 times
      /\ ~ later_below_half_first times.
Proof.
  destruct times as [|first_query subsequent].
  { simpl. split; [discriminate | intros [H _]; simpl in H; lia]. }
  destruct subsequent as [|t ts].
  { simpl. split; [discriminate | intros [H _]; simpl in H; lia]. }
  rewrite detect_caching_long by discriminate.
  rewrite <- subsequent_below_half, <- times_all_above_10.
  destruct (forallb (fun t0 => Qltb t0 (first_query * 0.5)%Q) (t :: ts)) eqn:E1;
    destruct (forallb (fun t0 => Qltb 10%Q t0) (first_query :: t :: ts)) eqn:E2;
    simpl List.length; split; try discriminate;
    try (intros (_ & A & B); congruence).
  intros _. split; [lia|]. split; [reflexivity | discriminate].
Qed.

(** C6, counterexample: for the latencies 0.8, 0.3, 0.2, 0.4 ms the last
    sample equals half of the first, is not below it, and the verdict is
    [Inconsistent], not [Confirmed]. *)
Lemma scenario_A_is_not_confirmed :
  detect_caching [0.8; 0.3; 0.2; 0.4]%Q = Some Inconsistent
  /\ detect_caching [0.8; 0.3; 0.2; 0.4]%Q <> Some Confirmed.
Proof. split; [reflexivity | discriminate]. Qed.

(** C6, as amended: the verdict is [Confirmed] if and only if the run has
    more than one sample and every sample after the first is strictly below
    half of the first; the latencies 0.8, 0.3, 0.2, 0.4 ms yield
    [Inconsistent] (0.4 is not below 0.4), while 0.8, 0.3, 0.2, 0.39 ms
    yield [Confirmed]. *)
Theorem confirmed_iff :
  (forall times : list Q,
      detect_caching times = Some Confirmed
      <-> (1 < List.length times)%nat /\ later_below_half_first times)
  /\ detect_caching [0.8; 0.3; 0.2; 0.4]%Q = Some Inconsistent
  /\ detect_caching [0.8; 0.3; 0.2; 0.39]%Q = Some Confirmed.
Proof.
  split; [|split; reflexivity].
  intros times.
  destruct times as [|first_query subsequent].
  { simpl. split; [discriminate | intros [H _]; simpl in H; lia]. }
  destruct subsequent as [|t ts].
  { simpl. split; [discriminate | intros [H _]; simpl in H; lia]. }
  rewrite detect_caching_long by discriminate.
  rewrite <- subsequent_below_half.
  destruct (forallb (fun t0 => Qltb t0 (first_query * 0.5)%Q) (t :: ts)) eqn:E1.
  - split; [|reflexivity]. intros _. split; [simpl; lia | reflexivity].
  - destruct (forallb (fun t0 => Qltb 10%Q t0) (first_query :: t :: ts));
      split; try discriminate; intros [_ H]; discriminate.
Qed.

(** The same comparison on binary64 floats: halving is exact, so 0.4 is not
    below half of 0.8 there either, and 0.39 is. *)
#[local] Set Warnings "-inexact-float".
Lemma scenario_A_in_binary64 :
  below_half_binary64 0.8%float [0.3; 0.2; 0.4]%float = false
  /\ below_half_binary64 0.8%float [0.3; 0.2; 0.39]%float = true.
Proof. split; vm_compute; reflexivity. Qed.
(** ** Substrings and splitting *)

Lemma append_cons (a : ascii) (s t : string) :
  (String a s ++ t)%string = String a (s ++ t)%string.
Proof. reflexivity. Qed.

Lemma prefix_app (needle hay : string) :
  String.prefix needle hay = true <-> exists post, hay = (needle ++ post)%string.
Proof.
  revert hay. induction needle as [|a needle IH]; intros hay.
  - destruct hay; simpl; split; eauto.
  - destruct hay as [|b hay]; simpl.
    + split; [discriminate | intros [post H]; discriminate].
    + destruct (ascii_dec a b) as [->|Hne].
      * rewrite IH. split; intros [post H]; exists post;
          rewrite append_cons in *; congruence.
      * split; [discriminate|].
        intros [post H]. rewrite append_cons in H. congruence.
Qed.

Lemma contains_occurs (needle hay : string) :
  PyStr.contains needle hay = true <-> occurs_in needle hay.
Proof.
  unfold occurs_in. induction hay as [|b hay IH].
  - change (PyStr.contains needle EmptyString)
      with (String.prefix needle EmptyString || false).
    rewrite orb_false_r, prefix_app. split.
    + intros [post H]. exists EmptyString, post. exact H.
    + intros ([|c pre] & post & H); [eauto | discriminate].
  - change (PyStr.contains needle (String b hay))
      with (String.prefix needle (String b hay) || PyStr.contains needle hay).
    rewrite orb_true_iff, prefix_app, IH. split.
    + intros [[post H] | (pre & post & H)].
      * exists EmptyString, post. exact H.
      * exists (String b pre), post. rewrite append_cons. congruence.
    + intros ([|c pre] & post & H).
      * left. exists post. exact H.
      * right. rewrite append_cons in H. exists pre, post. congruence.
Qed.




Lemma split1_nonempty (c : ascii) (s : string) : PyStr.split1 c s <> [].
Proof.
  destruct s as [|a s]; simpl; [discriminate|].
  destruct (Ascii.eqb a c); [discriminate|].
  destruct (PyStr.split1 c s); discriminate.
Qed.

(** The test of line 41 never raises. *)
Lemma line_matches_returns (domain line : string) :
  exists b, CacheRule.line_matches domain line = Returns b.
Proof.
  unfold CacheRule.line_matches.
  destruct (PyStr.contains domain line); [eauto|].
  pose proof (split1_nonempty "."%char domain) as H.
  destruct (PyStr.split1 "."%char domain); [congruence|]. simpl. eauto.
Qed.


(** ** The rule scan: first matching line, window of five lines *)

Lemma skipn_nth_error (l : list string) (i : nat) (x : string) :
  nth_error l i = Some x -> skipn i l = x :: skipn (S i) l.
Proof.
  revert i. induction l as [|a l IH]; intros [|i] H; simpl in *; try discriminate.
  - injection H as ->. reflexivity.
  - rewrite (IH i H). reflexivity.
Qed.

Lemma for_each_window (lines : list string) (k i : nat) (r : Rule) :
  (i + k <= List.length lines)%nat ->
  CacheRule.for_each (CacheRule.inner_body lines) (seq i k) r
  = fields_of_window (firstn k (skipn i lines)) r.
Proof.
  revert i r. induction k as [|k IH]; intros i r Hlen.
  - reflexivity.
  - destruct (nth_error lines i) as [x|] eqn:Hx.
    2:{ apply nth_error_None in Hx. lia. }
    rewrite (skipn_nth_error _ _ _ Hx). simpl.
    unfold CacheRule.inner_body at 1, PyStr.item. rewrite Hx. simpl.
    destruct (CacheRule.read_field r x) as [r'|e]; simpl; [|reflexivity].
    apply IH. lia.
Qed.

Lemma firstn_min_length (n : nat) (l : list string) :
  firstn (Nat.min n (List.length l)) l = firstn n l.
Proof.
  destruct (Nat.le_ge_cases n (List.length l)) as [H|H].
  - rewrite Nat.min_l by exact H. reflexivity.
  - rewrite Nat.min_r by exact H.
    rewrite firstn_all, firstn_all2 by exact H. reflexivity.
Qed.

Lemma extract_rule_window (pre post : list string) (l : string) :
  CacheRule.extract_rule (pre ++ l :: post) (List.length pre)
  = fields_of_window (firstn 5 (l :: post)) empty_rule.
Proof.
  unfold CacheRule.extract_rule, CacheRule.range.
  set (lines := pre ++ l :: post).
  assert (Hlen : List.length lines = (List.length pre + S (List.length post))%nat).
  { unfold lines. rewrite length_app. reflexivity. }
  assert (Hk : (Nat.min (List.length pre + 5) (List.length lines) - List.length pre
               = Nat.min 5 (List.length (l :: post)))%nat).
  { rewrite Hlen. simpl List.length. lia. }
  rewrite Hk, for_each_window.
  - unfold lines. rewrite skipn_app, skipn_all, Nat.sub_diag.
    change (skipn 0 (l :: post)) with (l :: post).
    change ([] ++ l :: post) with (l :: post).
    rewrite firstn_min_length. reflexivity.
  - rewrite Hlen. simpl List.length. lia.
Qed.

Lemma scan_first_match (domain : string) (lines pre post : list string)
  (l : string) (i : nat) :
  Forall (fun x => CacheRule.line_matches domain x = Returns false) pre ->
  CacheRule.line_matches domain l = Returns true ->
  CacheRule.scan domain lines i (pre ++ l :: post)
  = obind (CacheRule.extract_rule lines (i + List.length pre))
          (fun rule_info => Returns (Some rule_info)).
Proof.
  intros Hpre Hl. revert i.
  induction Hpre as [|x pre Hx Hpre IH]; intros i; simpl.
  - rewrite Hl, Nat.add_0_r. reflexivity.
  - rewrite Hx. simpl. rewrite IH. f_equal. f_equal. lia.
Qed.


(** What [get_cache_rule] returns when the dump was read: the window of
    the first matching line decides. *)
Lemma get_cache_rule_first_match (p : CompletedProcess) (domain : string)
  (pre post : list string) (l : string) :
  returncode p = 0%Z ->
  PyStr.split newline (PyStr.strip (stdout p)) = pre ++ l :: post ->
  Forall (fun x => CacheRule.line_matches domain x = Returns false) pre ->
  CacheRule.line_matches domain l = Returns true ->
  CacheRule.get_cache_rule (Returns p) domain
  = Returns (rule_of_window (firstn 5 (l :: post))).
Proof.
  intros Hrc Hlines Hpre Hl.
  unfold CacheRule.get_cache_rule, CacheRule.get_cache_rule_try.
  unfold obind at 1. rewrite Hrc. change (0 =? 0)%Z with true. cbv iota.
  rewrite Hlines, (scan_first_match domain _ pre post l 0 Hpre Hl).
  change (0 + List.length pre)%nat with (List.length pre).
  rewrite extract_rule_window. unfold rule_of_window.
  destruct (fields_of_window (firstn 5 (l :: post)) empty_rule); reflexivity.
Qed.


Lemma get_cache_rule_returns (run : outcome CompletedProcess) (domain : string) :
  exists r, CacheRule.get_cache_rule run domain = Returns r.
Proof.
  unfold CacheRule.get_cache_rule.
  destruct (CacheRule.get_cache_rule_try run domain) as [[r|]|e]; eauto.
Qed.

(** Whether a line can be read does not depend on the fields read so far. *)
Lemma read_field_parses (r : Rule) (line : string) :
  (exists r', CacheRule.read_field r line = Returns r') <-> line_parses line = true.
Proof.
  unfold line_parses, CacheRule.read_field.
  destruct (PyStr.contains "action" line).
  - destruct (PyStr.item (PyStr.split "="%char line) 1); simpl;
      split; eauto; try discriminate. intros [r' H]. discriminate.
  - destruct (PyStr.contains "ttl" line).
    + destruct (PyStr.item (PyStr.split "="%char line) 1) as [v|e]; simpl.
      * destruct (PyStr.int (PyStr.strip_chars CacheRule.ttl_trim v)); simpl;
          split; eauto; try discriminate. intros [r' H]. discriminate.
      * split; [intros [r' H]|]; discriminate.
    + split; eauto.
Qed.

Lemma fields_of_window_parses (window : list string) (r : Rule) :
  (exists r', fields_of_window window r = Returns r')
  <-> forallb line_parses window = true.
Proof.
  revert r. induction window as [|line window IH]; intros r; simpl.
  - split; eauto.
  - rewrite andb_true_iff, <- (read_field_parses r line).
    destruct (CacheRule.read_field r line) as [r1|e].
    + rewrite <- (IH r1). split; [intros H; split; eauto | intros [_ H]; exact H].
    + split; [intros [r' H]; discriminate | intros [[r' H] _]; discriminate].
Qed.

Lemma rule_of_window_parses (window : list string) :
  rule_of_window window <> None <-> forallb line_parses window = true.
Proof.
  rewrite <- (fields_of_window_parses window empty_rule). unfold rule_of_window.
  destruct (fields_of_window window empty_rule) as [r|e].
  - split; [eauto | discriminate].
  - split; [congruence | intros [r' H]; discriminate].
Qed.

Lemma append_assoc (s t u : string) :
  ((s ++ t) ++ u)%string = (s ++ (t ++ u))%string.
Proof.
  induction s as [|a s IH]; [reflexivity|].
  rewrite !append_cons, IH. reflexivity.
Qed.



(** ** Claims about the cache rule resolver *)

(** C4, counterexample: in a block whose [ttl] value is the quoted string
    [120], the action [block] is read from the line before, yet the lookup
    returns [None], not a rule that carries the action. *)
Lemma quoted_ttl_discards_action :
  fields_of_window
    (firstn 2 (PyStr.split newline (PyStr.strip quoted_ttl_rules))) empty_rule
  = Returns {| action := Some "block"%string; ttl := None |}
  /\ CacheRule.get_cache_rule (exited 0 quoted_ttl_rules) "sub.example.com"
     = Returns None
  /\ CacheRule.get_cache_rule (exited 0 quoted_ttl_rules) "sub.example.com"
     <> Returns (Some {| action := Some "block"%string; ttl := None |}).
Proof. split; [reflexivity|]. split; [reflexivity | discriminate]. Qed.

(** [int] returns an integer or raises [ValueError], nothing else. *)
Lemma int_outcomes (s : string) :
  (exists z, PyStr.int s = Returns z) \/ PyStr.int s = Raises ValueError.
Proof.
  unfold PyStr.int. destruct (_ <? _)%nat; [right; reflexivity|].
  match goal with
  | |- context [match ?o with Some z => Returns z | None => Raises ValueError end] =>
      destruct o as [z|]
  end; [left; exists z; reflexivity | right; reflexivity].
Qed.

(** A line without the separator is one piece, so it has no piece at
    index 1; a line with the separator has one. *)
Lemma split_free (c : ascii) (s : string) :
  free_of c s = true -> PyStr.split c s = [s].
Proof.
  induction s as [|a s IH]; simpl; [reflexivity|].
  destruct (Ascii.eqb a c); simpl; [discriminate|].
  intros H. rewrite (IH H). reflexivity.
Qed.

Lemma split_not_free (c : ascii) (s : string) :
  free_of c s = false -> exists x y l, PyStr.split c s = x :: y :: l.
Proof.
  induction s as [|a s IH]; simpl; [discriminate|].
  destruct (Ascii.eqb a c); simpl.
  - intros _. destruct (PyStr.split c s) as [|y l] eqn:E.
    + destruct s; simpl in E; [discriminate|].
      destruct (Ascii.eqb _ _); [discriminate|].
      destruct (PyStr.split c s); discriminate.
    + eauto.
  - intros H. destruct (IH H) as (x & y & l & ->). eauto.
Qed.

Lemma item_split_free (c : ascii) (s : string) :
  free_of c s = true -> PyStr.item (PyStr.split c s) 1 = Raises IndexError.
Proof. intros H. rewrite (split_free _ _ H). reflexivity. Qed.

Lemma item_split_not_free (c : ascii) (s : string) :
  free_of c s = false -> exists v, PyStr.item (PyStr.split c s) 1 = Returns v.
Proof.
  intros H. destruct (split_not_free _ _ H) as (x & y & l & ->).
  exists y. reflexivity.
Qed.

(** The lines that lines 45 to 48 cannot read. *)
Lemma line_parses_false (line : string) :
  line_parses line = false <->
  (PyStr.contains "action" line = true /\ free_of "="%char line = true)
  \/ (PyStr.contains "action" line = false
      /\ PyStr.contains "ttl" line = true
      /\ (free_of "="%char line = true
          \/ exists v,
               PyStr.item (PyStr.split "="%char line) 1 = Returns v
               /\ PyStr.int (PyStr.strip_chars CacheRule.ttl_trim v)
                  = Raises ValueError)).
Proof.
  unfold line_parses, CacheRule.read_field.
  destruct (PyStr.contains "action" line) eqn:Ea.
  - destruct (free_of "="%char line) eqn:Ef.
    + rewrite (item_split_free _ _ Ef). simpl. split; [auto | reflexivity].
    + destruct (item_split_not_free _ _ Ef) as [v Hv]. rewrite Hv. simpl.
      split; [discriminate|]. intros [[_ H]|[H _]]; discriminate.
  - destruct (PyStr.contains "ttl" line) eqn:Et.
    + destruct (free_of "="%char line) eqn:Ef.
      * rewrite (item_split_free _ _ Ef). simpl. split; [auto | reflexivity].
      * destruct (item_split_not_free _ _ Ef) as [v Hv]. rewrite Hv. simpl.
        destruct (int_outcomes (PyStr.strip_chars CacheRule.ttl_trim v))
          as [[z Hz]|Hz]; rewrite Hz; simpl.
        -- split; [discriminate|].
           intros [[H _]|(_ & _ & [H|(v' & Hv' & Hi)])]; try discriminate.
           congruence.
        -- split; [|reflexivity]. intros _. right.
           split; [reflexivity|]. split; [reflexivity|]. right. eauto.
    + split; [discriminate|]. intros [[H _]|(_ & H & _)]; discriminate.
Qed.

(** C4, as amended: [get_cache_rule] never raises, whatever the read of the
    rules did. When the dump was read and some line matches the domain, the
    result is decided by the window of at most five lines that starts at the
    first matching line: if every line of the window can be read, the fields
    found there are returned; if some line of the window cannot be read, the
    result is [None], and a field read before that line is lost. A line
    cannot be read exactly when it contains [action] and no [=] at all, or
    contains [ttl] but not [action] and either has no [=] or has, between
    its first [=] and the next, a text that [int] rejects once blanks and
    semicolons are stripped from its ends. The quoted TTL of the
    counterexample is such a line, and so is an [action] line without [=];
    an [action] line that ends at its [=] is read, as the empty action. *)
Theorem get_cache_rule_fails_soft :
  (forall (run : outcome CompletedProcess) (domain : string),
      exists r, CacheRule.get_cache_rule run domain = Returns r)
  /\ (forall (p : CompletedProcess) (domain : string)
             (pre post : list string) (l : string),
         returncode p = 0%Z ->
         PyStr.split newline (PyStr.strip (stdout p)) = pre ++ l :: post ->
         Forall (fun x => CacheRule.line_matches domain x = Returns false) pre ->
         CacheRule.line_matches domain l = Returns true ->
         let window := firstn 5 (l :: post) in
         (forallb line_parses window = true ->
          exists r, fields_of_window window empty_rule = Returns r
                    /\ CacheRule.get_cache_rule (Returns p) domain = Returns (Some r))
         /\ (forallb line_parses window = false ->
             CacheRule.get_cache_rule (Returns p) domain = Returns None))
  /\ (forall line : string,
         line_parses line = false <->
         (PyStr.contains "action" line = true /\ free_of "="%char line = true)
         \/ (PyStr.contains "action" line = false
             /\ PyStr.contains "ttl" line = true
             /\ (free_of "="%char line = true
                 \/ exists v,
                      PyStr.item (PyStr.split "="%char line) 1 = Returns v
                      /\ PyStr.int (PyStr.strip_chars CacheRule.ttl_trim v)
                         = Raises ValueError)))
  /\ line_parses quoted_ttl_line = false
  /\ line_parses "    action block;" = false
  /\ CacheRule.read_field empty_rule "    action ="
     = Returns {| action := Some EmptyString; ttl := None |}
  /\ CacheRule.get_cache_rule (exited 0 quoted_ttl_rules) "sub.example.com"
     = Returns None.
Proof.
  split; [exact get_cache_rule_returns|].
  split; [|split; [exact line_parses_false | repeat split]].
  intros p domain pre post l Hrc Hlines Hpre Hl window.
  rewrite (get_cache_rule_first_match p domain pre post l Hrc Hlines Hpre Hl).
  fold window. split; intros Hw.
  - apply fields_of_window_parses with (r := empty_rule) in Hw.
    destruct Hw as [r Hr]. exists r. split; [exact Hr|].
    unfold rule_of_window. rewrite Hr. reflexivity.
  - destruct (rule_of_window window) as [r|] eqn:E; [|reflexivity].
    assert (H : rule_of_window window <> None) by congruence.
    apply rule_of_window_parses in H. congruence.
Qed.

Lemma get_cache_rule_fails_soft_witness :
  (exists r,
      fields_of_window (firstn 5 (example_first_line :: example_other_lines))
        empty_rule = Returns r
      /\ CacheRule.get_cache_rule (exited 0 example_rules) "sub.example.com"
         = Returns (Some r))
  /\ forallb line_parses (firstn 5 (example_first_line :: quoted_ttl_other_lines))
     = false
  /\ CacheRule.get_cache_rule (exited 0 quoted_ttl_rules) "sub.example.com"
     = Returns None.
Proof.
  split; [|split; [reflexivity|]].
  - apply (proj1 (proj2 get_cache_rule_fails_soft)
             {| returncode := 0; stdout := example_rules; stderr := EmptyString |}
             "sub.example.com"%string [] example_other_lines example_first_line);
      [reflexivity | reflexivity | constructor | reflexivity | reflexivity].
  - apply (proj1 (proj2 get_cache_rule_fails_soft)
             {| returncode := 0; stdout := quoted_ttl_rules; stderr := EmptyString |}
             "sub.example.com"%string [] quoted_ttl_other_lines example_first_line);
      [reflexivity | reflexivity | constructor | reflexivity | reflexivity].
Defined.



(** ** One probe *)

Lemma query_dns_run (domain : string) (w : World) :
  Script.query_dns domain w
  = (sample_of_run (now w) (dig w (probes w)), after_dig domain w).
Proof.
  unfold Script.query_dns, bind, try_except, time_time, run_dig, sample_of_run,
    after_dig, ret. simpl.
  destruct (ended (dig w (probes w))) as [p|e]; simpl; [reflexivity|].
  destruct e; reflexivity.
Qed.

Lemma sample_of_run_undisturbed (start : Q) (r : DigRun) :
  undisturbed r = true -> exists s, sample_of_run start r = Returns s.
Proof.
  unfold undisturbed, sample_of_run.
  destruct (ended r) as [p|e]; [eauto|].
  destruct e; intros H; try discriminate. eauto.
Qed.




(** ** The schedule of probes and sleeps *)

Lemma probe_schedule_step (domain : string) (delay : Q) (n : nat) :
  probe_schedule domain delay (S (S n))
  = Probe domain :: Sleep delay :: probe_schedule domain delay (S n).
Proof. reflexivity. Qed.


(** ** The sampling loop *)

Lemma time_sleep_ok (seconds : Q) (w : World) :
  (0 <= seconds)%Q -> time_sleep seconds w = (Returns tt, after_sleep seconds w).
Proof.
  intros H. unfold time_sleep. apply Qltb_ge in H. rewrite H. reflexivity.
Qed.

(** A sleep of a constant length that is not negative, evaluated. *)
Ltac sleep_const :=
  repeat match goal with
    | |- context [time_sleep ?s ?x] =>
        change (time_sleep s x) with (Returns tt, after_sleep s x)
    end.

Lemma time_sleep_negative (seconds : Q) (w : World) :
  (seconds < 0)%Q -> time_sleep seconds w = (Raises ValueError, w).
Proof.
  intros H. unfold time_sleep. apply Qltb_lt in H. rewrite H. reflexivity.
Qed.

Lemma query_loop_cons (domain : string) (iterations : nat) (delay : Q)
  (i : nat) (js : list nat) (times : list Q) (printed : list Script.QueryLine)
  (w : World) :
  Script.query_loop domain iterations delay (i :: js) times printed w
  = match Script.query_dns domain w with
    | (Returns r, w1) =>
        let line := {| Script.number := i + 1; Script.sample := r;
                       Script.indicator := cache_indicator r;
                       Script.answered := status_ok r |} in
        if (Z.of_nat i <? Z.of_nat iterations - 1)%Z then
          if Qltb delay 0 then (Raises ValueError, w1)
          else Script.query_loop domain iterations delay js
                 (times ++ [time_ms r]) (printed ++ [line]) (after_sleep delay w1)
        else Script.query_loop domain iterations delay js
               (times ++ [time_ms r]) (printed ++ [line]) w1
    | (Raises e, w1) => (Raises e, w1)
    end.
Proof.
  cbn [Script.query_loop]. unfold bind.
  destruct (Script.query_dns domain w) as [[r|e] w1]; [|reflexivity].
  destruct (Z.of_nat i <? Z.of_nat iterations - 1)%Z; [|reflexivity].
  unfold time_sleep. destruct (Qltb delay 0); reflexivity.
Qed.

Lemma query_loop_cons_ok (domain : string) (iterations : nat) (delay : Q)
  (i : nat) (js : list nat) (times : list Q) (printed : list Script.QueryLine)
  (w : World) :
  (0 <= delay)%Q ->
  Script.query_loop domain iterations delay (i :: js) times printed w
  = match Script.query_dns domain w with
    | (Returns r, w1) =>
        Script.query_loop domain iterations delay js
          (times ++ [time_ms r])
          (printed ++ [ {| Script.number := i + 1; Script.sample := r;
                           Script.indicator := cache_indicator r;
                           Script.answered := status_ok r |} ])
          (if (Z.of_nat i <? Z.of_nat iterations - 1)%Z
           then after_sleep delay w1 else w1)
    | (Raises e, w1) => (Raises e, w1)
    end.
Proof.
  intros H. rewrite query_loop_cons. apply Qltb_ge in H. rewrite H.
  destruct (Script.query_dns domain w) as [[r|e] w1]; [|reflexivity].
  cbv zeta. destruct (Z.of_nat i <? Z.of_nat iterations - 1)%Z; reflexivity.
Qed.

Lemma query_loop_run (domain : string) (iterations : nat) (delay : Q) (k : nat) :
  (0 <= delay)%Q ->
  forall (a : nat) (times : list Q) (printed : list Script.QueryLine) (w : World),
    (a + k = iterations)%nat ->
    (forall j, (j < k)%nat -> undisturbed (dig w (probes w + j)) = true) ->
    exists (new : list Script.QueryLine) (w' : World),
      Script.query_loop domain iterations delay (seq a k) times printed w
      = (Returns (times ++ map (fun l => time_ms (Script.sample l)) new,
                  printed ++ new), w')
      /\ List.length new = k
      /\ probes w' = (probes w + k)%nat
      /\ prefs w' = prefs w
      /\ dig w' = dig w
      /\ journal w' = rev (probe_schedule domain delay k) ++ journal w
      /\ (forall j, (j < k)%nat ->
            exists line,
              nth_error new j = Some line
              /\ Script.number line = (a + j + 1)%nat
              /\ records (dig w (probes w + j)) (Script.sample line)
              /\ line_agrees line).
Proof.
  intros Hdelay.
  induction k as [|k IH]; intros a times printed w Ha Hu.
  - exists [], w. simpl. rewrite !app_nil_r.
    repeat split; try reflexivity; try lia.
  - change (seq a (S k)) with (a :: seq (S a) k).
    rewrite (query_loop_cons_ok _ _ _ _ _ _ _ _ Hdelay), query_dns_run.
    pose proof (Hu 0%nat ltac:(lia)) as H0. rewrite Nat.add_0_r in H0.
    destruct (sample_of_run_undisturbed (now w) _ H0) as [s Hs]. rewrite Hs.
    set (line := {| Script.number := a + 1; Script.sample := s;
                    Script.indicator := cache_indicator s;
                    Script.answered := status_ok s |}).
    set (w2 := if (Z.of_nat a <? Z.of_nat iterations - 1)%Z
               then after_sleep delay (after_dig domain w)
               else after_dig domain w).
    assert (Hp : probes w2 = S (probes w))
      by (unfold w2; destruct (_ <? _)%Z; reflexivity).
    assert (Hd : dig w2 = dig w)
      by (unfold w2; destruct (_ <? _)%Z; reflexivity).
    assert (Hf : prefs w2 = prefs w)
      by (unfold w2; destruct (_ <? _)%Z; reflexivity).
    assert (Hj : rev (probe_schedule domain delay k) ++ journal w2
                 = rev (probe_schedule domain delay (S k)) ++ journal w).
    { unfold w2. destruct (Z.of_nat a <? Z.of_nat iterations - 1)%Z eqn:E.
      - apply Z.ltb_lt in E. destruct k as [|k]; [lia|].
        rewrite probe_schedule_step. simpl rev. simpl journal.
        rewrite <- !app_assoc. reflexivity.
      - apply Z.ltb_ge in E. destruct k as [|k]; [reflexivity | lia]. }
    destruct (IH (S a) (times ++ [time_ms s]) (printed ++ [line]) w2) as
      (new & w' & Hrun & Hlen & Hp' & Hf' & Hd' & Hj' & Hrec).
    { lia. }
    { intros j Hjk. rewrite Hd, Hp.
      replace (S (probes w) + j)%nat with (probes w + S j)%nat by lia.
      apply Hu. lia. }
    exists (line :: new), w'. rewrite Hrun.
    split. { simpl map. rewrite <- !app_assoc. reflexivity. }
    split. { simpl. lia. }
    split. { lia. }
    split. { congruence. }
    split. { congruence. }
    split. { rewrite Hj'. exact Hj. }
    intros [|j] Hjk.
    + exists line. rewrite !Nat.add_0_r.
      split; [reflexivity|]. split; [reflexivity|].
      split; [exists (now w); exact Hs | split; reflexivity].
    + destruct (Hrec j ltac:(lia)) as (l' & Hn & Hnum & Hr & Hag).
      exists l'. split; [exact Hn|]. split; [lia|]. split; [|exact Hag].
      rewrite Hd, Hp in Hr.
      replace (probes w + S j)%nat with (S (probes w) + j)%nat by lia. exact Hr.
Qed.

(** The preferences are not touched by the loop, whether it ends or raises. *)
Lemma query_loop_prefs (domain : string) (iterations : nat) (delay : Q)
  (js : list nat) :
  forall (times : list Q) (printed : list Script.QueryLine) (w : World),
    prefs (snd (Script.query_loop domain iterations delay js times printed w))
    = prefs w.
Proof.
  induction js as [|i js IH]; intros times printed w.
  - reflexivity.
  - rewrite query_loop_cons, query_dns_run.
    destruct (sample_of_run (now w) (dig w (probes w))) as [s|e]; [|reflexivity].
    cbv zeta. destruct (_ <? _)%Z; [destruct (Qltb delay 0)|];
      rewrite ?IH; reflexivity.
Qed.

(** ** [test_domain_cache] as one loop and its statistics *)

Lemma test_domain_cache_unfold (domain : string) (n : nat) (delay : Q) (w : World) :
  Script.test_domain_cache domain n delay w
  = match Script.query_loop domain n delay (CacheRule.range 0 n) [] [] w with
    | (Returns tp, w') =>
        match statistics_of (fst tp) with
        | Returns st =>
            (Returns {| Script.cache_enabled := cache_enabled_text w;
                        Script.rule_report :=
                          CacheRule.rule_line (stored_rule domain w);
                        Script.queries := snd tp;
                        Script.times := fst tp;
                        Script.stats := st;
                        Script.verdict := detect_caching (fst tp) |}, w')
        | Raises e => (Raises e, w')
        end
    | (Raises e, w') => (Raises e, w')
    end.
Proof.
  unfold Script.test_domain_cache, Script.get_cache_rule, cache_enabled_text,
    stored_rule.
  destruct (get_cache_rule_returns (fst (defaults_read "DomainCacheRules" w)) domain)
    as [rule Hrule].
  rewrite Hrule. unfold defaults_read in Hrule. cbn [fst] in Hrule.
  unfold bind, defaults_read, ret, lift, nl. cbv beta. cbn [fst snd].
  destruct (prefs w !! "EnableDNSCache"%string) as [v|];
    cbn [returncode stdout Z.eqb fst snd]; cbv beta;
    [|destruct (prefs w !! "UserCanAdjustCache"%string) as [u|]];
    cbn [returncode stdout Z.eqb fst snd]; rewrite Hrule;
    destruct (Script.query_loop domain n delay (CacheRule.range 0 n) [] [] w)
      as [[tp|e] w']; try reflexivity;
    destruct (statistics_of (fst tp)); reflexivity.
Qed.

Lemma test_domain_cache_prefs (domain : string) (n : nat) (delay : Q) (w : World) :
  prefs (snd (Script.test_domain_cache domain n delay w)) = prefs w.
Proof.
  rewrite test_domain_cache_unfold.
  pose proof (query_loop_prefs domain n delay (CacheRule.range 0 n) [] [] w) as H.
  destruct (Script.query_loop domain n delay (CacheRule.range 0 n) [] [] w)
    as [[tp|e] w']; [|exact H].
  destruct (statistics_of (fst tp)); exact H.
Qed.

Lemma statistics_of_returns (times : list Q) :
  times <> [] -> exists st, statistics_of times = Returns st.
Proof. destruct times; [congruence|]. simpl. eauto. Qed.

(** Without iterations there is no sample, and [min] raises. *)
Lemma no_iterations_raises (domain : string) (delay : Q) (w : World) :
  fst (Script.test_domain_cache domain 0 delay w) = Raises ValueError.
Proof. rewrite test_domain_cache_unfold. reflexivity. Qed.

(** ** Claims about probing and sampling *)

(** C5, counterexample: when [dig] is killed by the timeout, the sample
    [query_dns] returns is labelled [Fresh], not [Error]. *)
Lemma timed_out_probe_is_labelled_fresh :
  let w := world0 None (fun _ => hangs) in
  ended (dig w (probes w)) = Raises TimeoutExpired
  /\ exists s,
       fst (Script.query_dns "example.com" w) = Returns s
       /\ cache_indicator s = Fresh
       /\ cache_indicator s <> Error.
Proof.
  split; [reflexivity|]. eexists. split; [reflexivity|].
  split; [reflexivity | discriminate].
Qed.

(** C5, as amended: whenever the invocation of [dig] times out, [query_dns]
    returns exactly the sentinel with a latency of 5000 ms, no answer and the
    error text [Timeout]; that sample is labelled [Fresh], never [Cached],
    and carries the mark of a missing answer. *)
Theorem timeout_gives_sentinel (domain : string) (w : World) :
  ended (dig w (probes w)) = Raises TimeoutExpired ->
  let s := {| time_ms := 5000%Q; result := None;
              error := Some "Timeout"%string |} in
  fst (Script.query_dns domain w) = Returns s
  /\ cache_indicator s = Fresh
  /\ cache_indicator s <> Cached
  /\ status_ok s = false.
Proof.
  intros H s. rewrite query_dns_run. unfold sample_of_run. rewrite H.
  split; [reflexivity|]. split; [reflexivity|]. split; [discriminate | reflexivity].
Qed.

Lemma timeout_gives_sentinel_witness :
  let s := {| time_ms := 5000%Q; result := None;
              error := Some "Timeout"%string |} in
  fst (Script.query_dns "example.com" (world0 None (fun _ => hangs))) = Returns s
  /\ cache_indicator s = Fresh
  /\ cache_indicator s <> Cached
  /\ status_ok s = false.
Proof.
  apply (timeout_gives_sentinel "example.com" (world0 None (fun _ => hangs))).
  reflexivity.
Defined.




(** ** A window that names no field *)

Lemma window_without_fields (window : list string) (r : Rule) :
  Forall (fun x => PyStr.contains "action" x = false
                   /\ PyStr.contains "ttl" x = false) window ->
  fields_of_window window r = Returns r.
Proof.
  induction 1 as [|x window [Ha Ht] _ IH]; simpl.
  - reflexivity.
  - unfold CacheRule.read_field. rewrite Ha, Ht. exact IH.
Qed.

Lemma stored_rule_get (domain : string) (w : World) :
  Script.get_cache_rule domain w = (Returns (stored_rule domain w), w).
Proof.
  unfold Script.get_cache_rule, stored_rule.
  destruct (get_cache_rule_returns (fst (defaults_read "DomainCacheRules" w)) domain)
    as [r Hr].
  rewrite Hr. reflexivity.
Qed.

Lemma main_ttl (fuel : nat) (prog domain : string) (w : World) :
  Script.main fuel [prog; domain; "ttl"%string] w
  = match Script.monitor_cache_ttl fuel domain
            (CacheRule.ttl_for_monitor (stored_rule domain w)) None w with
    | (Returns sm, w') =>
        (Returns (Script.Monitored
                    (CacheRule.ttl_for_monitor (stored_rule domain w)) sm), w')
    | (Raises e, w') => (Raises e, w')
    end.
Proof.
  unfold Script.main. cbn [String.eqb Ascii.eqb Bool.eqb].
  unfold bind at 1. rewrite stored_rule_get. unfold bind at 1.
  destruct (Script.monitor_cache_ttl fuel domain
              (CacheRule.ttl_for_monitor (stored_rule domain w)) None w)
    as [[sm|e] w']; reflexivity.
Qed.

(** C10: when the first line that matches the domain opens a window (the
    line itself and at most four more) in which no line contains [action] or
    [ttl], [get_cache_rule] returns the empty rule, which is not [None]; both
    callers treat it as they treat [None]: [test_domain_cache] reports the
    default rule with its TTL of 300 seconds, and the [ttl] command of [main]
    monitors with an expected TTL of 300. *)
Theorem empty_rule_is_treated_as_absent (text domain : string)
  (pre post : list string) (l : string) (w : World) :
  prefs w !! "DomainCacheRules"%string = Some text ->
  PyStr.split newline (PyStr.strip (String.append text nl)) = pre ++ l :: post ->
  Forall (fun x => CacheRule.line_matches domain x = Returns false) pre ->
  CacheRule.line_matches domain l = Returns true ->
  Forall (fun x => PyStr.contains "action" x = false
                   /\ PyStr.contains "ttl" x = false) (firstn 5 (l :: post)) ->
  fst (Script.get_cache_rule domain w) = Returns (Some empty_rule)
  /\ Some empty_rule <> None
  /\ action empty_rule = None /\ ttl empty_rule = None
  /\ CacheRule.rule_line (Some empty_rule) = CacheRule.RuleDefault300
  /\ CacheRule.rule_line None = CacheRule.RuleDefault300
  /\ CacheRule.ttl_for_monitor (Some empty_rule) = 300%Z
  /\ CacheRule.ttl_for_monitor None = 300%Z
  /\ (forall (n : nat) (delay : Q),
         match fst (Script.test_domain_cache domain n delay w) with
         | Returns report => Script.rule_report report = CacheRule.RuleDefault300
         | Raises _ => True
         end)
  /\ (forall (fuel : nat) (prog : string),
         match fst (Script.main fuel [prog; domain; "ttl"%string] w) with
         | Returns out => exists sm, out = Script.Monitored 300 sm
         | Raises _ => True
         end).
Proof.
  intros Hprefs Hlines Hpre Hl Hwin.
  assert (Hrule : stored_rule domain w = Some empty_rule).
  { unfold stored_rule, defaults_read. cbn [fst]. rewrite Hprefs.
    rewrite (get_cache_rule_first_match _ domain pre post l);
      [|reflexivity | exact Hlines | exact Hpre | exact Hl].
    unfold rule_of_window. rewrite (window_without_fields _ _ Hwin). reflexivity. }
  split. { rewrite stored_rule_get, Hrule. reflexivity. }
  split; [discriminate|]. do 6 (split; [reflexivity|]). split.
  - intros n delay. rewrite test_domain_cache_unfold, Hrule.
    destruct (Script.query_loop domain n delay (CacheRule.range 0 n) [] [] w)
      as [[tp|e] w']; [|exact I].
    destruct (statistics_of (fst tp)); [reflexivity | exact I].
  - intros fuel prog. rewrite main_ttl, Hrule.
    destruct (Script.monitor_cache_ttl fuel domain
                (CacheRule.ttl_for_monitor (Some empty_rule)) None w)
      as [[sm|e] w']; [|exact I].
    exists sm. reflexivity.
Qed.

Lemma empty_rule_is_treated_as_absent_witness :
  fst (Script.get_cache_rule "example.com" (world_with_rules bare_rules))
  = Returns (Some empty_rule)
  /\ Some empty_rule <> None
  /\ CacheRule.rule_line (Some empty_rule) = CacheRule.RuleDefault300
  /\ CacheRule.ttl_for_monitor (Some empty_rule) = 300%Z.
Proof.
  destruct (empty_rule_is_treated_as_absent bare_rules "example.com" []
              [ "    enabled = 1;"; "};" ]%string
              (dq ++ "example.com" ++ dq ++ " = {")%string
              (world_with_rules bare_rules))
    as (H1 & H2 & _ & _ & H3 & _ & H4 & _).
  - reflexivity.
  - reflexivity.
  - constructor.
  - reflexivity.
  - repeat constructor.
  - auto.
Defined.

(** ** Claims about the comparison run *)

Lemma main_compare (fuel : nat) (prog domain : string) (w : World) :
  Script.main fuel [prog; domain; "compare"%string] w
  = match Script.compare domain w with
    | (Returns rr, w') => (Returns (Script.Compared (fst rr) (snd rr)), w')
    | (Raises e, w') => (Raises e, w')
    end.
Proof.
  unfold Script.main. cbn [String.eqb Ascii.eqb Bool.eqb]. unfold bind at 1.
  destruct (Script.compare domain w) as [[rr|e] w']; reflexivity.
Qed.

(** Where a comparison run leaves the flag: at [1] when it ends; where it
    was when the first pass raises; at [0] when the second pass raises. *)
Lemma compare_flag (domain : string) (w : World) :
  match fst (Script.compare domain w) with
  | Returns _ => flag_of (snd (Script.compare domain w)) = Some "1"%string
  | Raises _ =>
      flag_of (snd (Script.compare domain w)) = flag_of w
      \/ flag_of (snd (Script.compare domain w)) = Some "0"%string
  end.
Proof.
  destruct (Script.compare domain w) as [res w'] eqn:Hc. cbn [fst snd].
  unfold Script.compare, bind, defaults_write_bool, time_sleep, ret in Hc.
  change (Qltb 2 0) with false in Hc. cbv iota in Hc.
  pose proof (test_domain_cache_prefs domain 5 0.1 w) as H1.
  destruct (Script.test_domain_cache domain 5 0.1 w) as [[r1|e1] w1];
    cbn [fst snd] in *.
  2:{ injection Hc as <- <-. left. unfold flag_of. rewrite H1. reflexivity. }
  match type of Hc with
  | context [Script.test_domain_cache domain 5 0.1 ?w3] =>
      pose proof (test_domain_cache_prefs domain 5 0.1 w3) as H2;
      destruct (Script.test_domain_cache domain 5 0.1 w3) as [[r2|e2] w4]
  end; cbn [fst snd prefs] in *; injection Hc as <- <-.
  - unfold flag_of, flag_key. cbn [prefs]. apply lookup_insert_eq.
  - right. unfold flag_of, flag_key. rewrite H2. apply lookup_insert_eq.
Qed.

(** C1, the run that shows the defect: with the flag stored as [0] before the
    call, [main] with the [compare] command ends normally and leaves the flag
    at [1], not at [0]; with the flag stored as [1] and the eighth probe
    interrupted, [main] raises and leaves the flag at [0]. In general the
    flag is [1] after every run that ends, whatever it was before, and a run
    that raises leaves it where it was or at [0]. *)
Theorem compare_does_not_restore_flag :
  (let w := world0 (Some "0"%string) (fun _ => quick 1) in
   flag_of w = Some "0"%string
   /\ (exists out, fst (Script.main 0 compare_argv w) = Returns out)
   /\ flag_of (snd (Script.main 0 compare_argv w)) = Some "1"%string)
  /\ (let w := world0 (Some "1"%string) interrupted_at_eighth in
      flag_of w = Some "1"%string
      /\ fst (Script.main 0 compare_argv w) = Raises KeyboardInterrupt
      /\ flag_of (snd (Script.main 0 compare_argv w)) = Some "0"%string)
  /\ (forall (fuel : nat) (prog domain : string) (w : World),
         match fst (Script.main fuel [prog; domain; "compare"%string] w) with
         | Returns _ =>
             flag_of (snd (Script.main fuel [prog; domain; "compare"%string] w))
             = Some "1"%string
         | Raises _ =>
             flag_of (snd (Script.main fuel [prog; domain; "compare"%string] w))
             = flag_of w
             \/ flag_of (snd (Script.main fuel [prog; domain; "compare"%string] w))
                = Some "0"%string
         end).
Proof.
  split; [|split].
  - split; [reflexivity|]. split; [|vm_compute; reflexivity].
    eexists. vm_compute. reflexivity.
  - split; [reflexivity|]. split; vm_compute; reflexivity.
  - intros fuel prog domain w. rewrite main_compare.
    pose proof (compare_flag domain w) as H.
    destruct (Script.compare domain w) as [[rr|e] w']; exact H.
Qed.

(** ** The monitoring loop as a whole *)

Lemma monitor_body_run (domain : string) (expected_ttl : Z) (start_time : Q)
  (sm : Script.MonitorSummary) (w : World) :
  match sample_of_run (now w) (dig w (probes w)) with
  | Returns r =>
      exists sm',
        Script.monitor_body domain expected_ttl start_time sm w
        = (Returns sm', snd (time_sleep 10 (after_dig domain w)))
  | Raises e =>
      Script.monitor_body domain expected_ttl start_time sm w
      = (Raises e, after_dig domain w)
  end.
Proof.
  unfold Script.monitor_body, bind, time_time. rewrite query_dns_run.
  destruct (sample_of_run (now w) (dig w (probes w))) as [r|e]; [|reflexivity].
  eexists. reflexivity.
Qed.

Lemma monitor_loop_observations (domain : string) (expected_ttl : Z)
  (test_duration start_time : Q) (fuel : nat) :
  forall (sm : Script.MonitorSummary) (w : World),
    Forall (observation_ok expected_ttl) (Script.observations sm) ->
    match fst (Script.monitor_loop fuel domain expected_ttl test_duration
                 start_time sm w) with
    | Returns (Some sm') =>
        Forall (observation_ok expected_ttl) (Script.observations sm')
    | _ => True
    end.
Proof.
  induction fuel as [|fuel IH]; intros sm w Hsm.
  - exact I.
  - cbn [Script.monitor_loop]. unfold bind at 1, time_time at 1.
    destruct (Qltb (now w - start_time) test_duration); [|exact Hsm].
    unfold bind at 1.
    pose proof (monitor_body_observation domain expected_ttl start_time sm w) as Hb.
    destruct (Script.monitor_body domain expected_ttl start_time sm w)
      as [[sm1|e] w1]; cbn [fst] in Hb; [|exact I].
    apply IH. destruct Hb as (obs & H1 & _ & H2 & H3).
    rewrite H1. apply Forall_app. split; [exact Hsm|].
    constructor; [split; assumption | constructor].
Qed.

Lemma monitor_cache_ttl_observations (fuel : nat) (domain : string)
  (expected_ttl : Z) (test_duration : option Q) (w : World) :
  match fst (Script.monitor_cache_ttl fuel domain expected_ttl test_duration w) with
  | Returns (Some sm) =>
      Forall (observation_ok expected_ttl) (Script.observations sm)
  | _ => True
  end.
Proof.
  unfold Script.monitor_cache_ttl, bind, time_time.
  destruct (Script.query_dns domain w) as [[first|e] w1]; [|exact I].
  apply monitor_loop_observations. constructor.
Qed.

(** With a clock that does not run backwards and a resolver that is not
    disturbed, the loop ends once the fuel covers the duration at one pass
    per ten seconds. *)
Lemma monitor_loop_ends (domain : string) (expected_ttl : Z)
  (test_duration start_time : Q) (fuel : nat) :
  forall (sm : Script.MonitorSummary) (w : World),
    (forall k, undisturbed (dig w k) = true) ->
    (forall k, (0 <= took (dig w k))%Q) ->
    (test_duration - (now w - start_time) <= 10 * inject_Z (Z.of_nat fuel))%Q ->
    exists sm' w',
      Script.monitor_loop (S fuel) domain expected_ttl test_duration start_time sm w
      = (Returns (Some sm'), w').
Proof.
  induction fuel as [|fuel IH]; intros sm w Hu Ht Hd;
    cbn [Script.monitor_loop]; unfold bind at 1, time_time at 1;
    destruct (Qltb (now w - start_time) test_duration) eqn:E;
    try (eexists _, _; reflexivity); apply Qltb_lt in E.
  - change (inject_Z (Z.of_nat 0)) with 0%Q in Hd. lra.
  - unfold bind at 1.
    pose proof (monitor_body_run domain expected_ttl start_time sm w) as Hb.
    destruct (sample_of_run_undisturbed (now w) _ (Hu (probes w))) as [r Hr].
    rewrite Hr in Hb. destruct Hb as [sm1 Hb]. rewrite Hb.
    apply IH.
    + exact Hu.
    + exact Ht.
    + sleep_const; cbn [after_sleep after_dig snd now].
      pose proof (Ht (probes w)) as H0.
      rewrite Nat2Z.inj_succ, <- Z.add_1_r, inject_Z_plus in Hd.
      change (inject_Z 1) with 1%Q in Hd. lra.
Qed.

(** X18: the monitor ends. With a resolver whose probes exit or time out
    and a clock that does not run backwards, a monitoring run with the default
    duration of the expected TTL plus 60 seconds returns its summary after at
    most one pass per ten seconds of that duration. *)
Lemma monitor_cache_ttl_ends (fuel : nat) (domain : string) (expected_ttl : Z)
  (w : World) :
  (forall k, undisturbed (dig w k) = true) ->
  (forall k, (0 <= took (dig w k))%Q) ->
  (inject_Z expected_ttl + 60 <= 10 * inject_Z (Z.of_nat fuel))%Q ->
  exists sm w',
    Script.monitor_cache_ttl (S fuel) domain expected_ttl None w
    = (Returns (Some sm), w').
Proof.
  intros Hu Ht Hd. unfold Script.monitor_cache_ttl.
  unfold bind at 1, time_time at 1. unfold bind at 1. rewrite query_dns_run.
  destruct (sample_of_run_undisturbed (now w) _ (Hu (probes w))) as [first Hf].
  rewrite Hf. apply monitor_loop_ends.
  - exact Hu.
  - exact Ht.
  - cbn [after_dig now]. pose proof (Ht (probes w)) as H0. lra.
Qed.

(** A monitoring run with an expected TTL of 30 seconds ends within ten
    passes when every probe answers. *)
Lemma monitor_run_ends :
  exists sm w',
    Script.monitor_cache_ttl 10 "example.com" 30 None (world0 None steady)
    = (Returns (Some sm), w').
Proof.
  apply (monitor_cache_ttl_ends 9 "example.com" 30 (world0 None steady)).
  - intros k. reflexivity.
  - intros k. discriminate.
  - discriminate.
Defined.

(** ** Claims about the labels and the monitor *)

(** C2, counterexample: a sample that carries the error text
    [connection refused] and a latency of 1 ms is labelled [Cached], not
    [Error]. *)
Lemma error_text_does_not_force_error :
  let s := {| time_ms := 1; result := Some EmptyString;
              error := Some "connection refused"%string |} in
  has_error_text s /\ cache_indicator s = Cached /\ cache_indicator s <> Error.
Proof.
  simpl. split; [|split].
  - eexists _, _. reflexivity.
  - reflexivity.
  - discriminate.
Qed.

(** C2, as amended: the label depends on the latency alone. Whatever the
    error text is, a sample is [Cached] iff its latency is below 5 ms and
    [Fresh] iff it is 5 ms or more; no sample is labelled [Error]. The
    monitor labels every observation by the same rule. *)
Theorem label_depends_on_latency_only :
  (forall s : Sample,
      (cache_indicator s = Cached <-> (time_ms s < 5)%Q)
      /\ (cache_indicator s = Fresh <-> (5 <= time_ms s)%Q)
      /\ cache_indicator s <> Error)
  /\ (forall fuel domain expected_ttl test_duration w,
         match fst (Script.monitor_cache_ttl fuel domain expected_ttl
                      test_duration w) with
         | Returns (Some sm) =>
             Forall (fun obs =>
                       Script.status obs = cache_indicator (Script.observed obs))
                    (Script.observations sm)
         | _ => True
         end).
Proof.
  split.
  - intros s. split; [apply cache_indicator_cached|].
    split; [apply cache_indicator_fresh | apply cache_indicator_never_error].
  - intros fuel domain expected_ttl test_duration w.
    pose proof (monitor_cache_ttl_observations fuel domain expected_ttl
                  test_duration w) as H.
    destruct (fst (Script.monitor_cache_ttl fuel domain expected_ttl
                     test_duration w)) as [[sm|]|e]; try exact I.
    apply (Forall_impl _ _ _ H).
    intros obs [H1 _]. exact H1.
Qed.

Lemma near_expected_expiry_spec (elapsed : Q) (expected_ttl : Z) :
  Script.near_expected_expiry elapsed expected_ttl = true
  <-> (inject_Z expected_ttl - 5 < elapsed
       /\ elapsed < inject_Z expected_ttl + 5)%Q.
Proof.
  unfold Script.near_expected_expiry.
  rewrite andb_true_iff, !Qltb_lt. reflexivity.
Qed.

(** One pass of the loop over a probe that is not disturbed: the
    observation it appends. *)
Lemma monitor_body_appends (domain : string) (expected_ttl : Z) (start_time : Q)
  (sm : Script.MonitorSummary) (w : World) :
  undisturbed (dig w (probes w)) = true ->
  exists r sm' w' obs,
    sample_of_run (now w) (dig w (probes w)) = Returns r
    /\ Script.monitor_body domain expected_ttl start_time sm w = (Returns sm', w')
    /\ Script.observations sm' = Script.observations sm ++ [obs]
    /\ Script.elapsed_since_start obs = (now w - start_time)%Q
    /\ Script.observed obs = r
    /\ Script.status obs = cache_indicator r
    /\ Script.expiry_reported obs
       = match Script.status obs with
         | Fresh => Script.near_expected_expiry (now w - start_time) expected_ttl
         | _ => false
         end.
Proof.
  intros Hu. destruct (sample_of_run_undisturbed (now w) _ Hu) as [r Hr].
  unfold Script.monitor_body, bind, time_time. rewrite query_dns_run, Hr.
  sleep_const. cbn [ret].
  exists r. eexists _, _, _. split; [reflexivity|]. split; [reflexivity|].
  cbn [Script.observations]. split; [reflexivity|].
  unfold cache_indicator. destruct (Qltb (time_ms r) 5); repeat split.
Qed.

(** C9, counterexample: a monitoring run with an expected TTL of 30
    seconds, over a resolver that answers slowly at first and within 1 ms
    afterwards, makes its third observation 28 seconds after the start.
    That observation lies within 5 seconds of the expected TTL and is
    labelled [Cached], and the expiry is not reported for it. *)
Lemma cached_observation_near_expiry_is_not_flagged :
  exists sm w' obs,
    Script.monitor_cache_ttl 12 "example.com" 30 None (world0 None warming_up)
    = (Returns (Some sm), w')
    /\ nth_error (Script.observations sm) 2 = Some obs
    /\ (Script.elapsed_since_start obs == 28)%Q
    /\ (Qabs (Script.elapsed_since_start obs - 30) < 5)%Q
    /\ Script.near_expected_expiry (Script.elapsed_since_start obs) 30 = true
    /\ Script.status obs = Cached
    /\ Script.expiry_reported obs = false.
Proof.
  eexists _, _, _. split; [vm_compute; reflexivity|].
  split; [reflexivity|]. split; [vm_compute; reflexivity|].
  split; [vm_compute; reflexivity|]. split; [vm_compute; reflexivity|].
  split; reflexivity.
Qed.

(** C9, as amended: the monitor reports the expiry for an observation
    exactly when the observation is labelled [Fresh] and the time elapsed
    since the start of the run lies strictly within 5 seconds of the
    expected TTL, on either side. Each pass of the loop over a probe that is
    not disturbed appends one observation, taken at the time elapsed since
    the start and flagged by that rule; with an expected TTL of 30 an
    observation at 28 seconds is flagged iff it is [Fresh], so a [Cached]
    one is not, and one at 10 seconds is never flagged. A run over a
    resolver that is not disturbed and a clock that does not run backwards
    returns a summary in which every observation is flagged by that rule. *)
Theorem expiry_reported_iff_fresh_and_near :
  (forall (elapsed : Q) (expected_ttl : Z),
      Script.near_expected_expiry elapsed expected_ttl = true
      <-> (inject_Z expected_ttl - 5 < elapsed
           /\ elapsed < inject_Z expected_ttl + 5)%Q)
  /\ (forall (elapsed : Q) (expected_ttl : Z),
         Script.near_expected_expiry elapsed expected_ttl = true
         <-> (Qabs (elapsed - inject_Z expected_ttl) < 5)%Q)
  /\ Script.near_expected_expiry 28 30 = true
  /\ Script.near_expected_expiry 10 30 = false
  /\ (forall (domain : string) (expected_ttl : Z) (start_time : Q)
             (sm : Script.MonitorSummary) (w : World),
         undisturbed (dig w (probes w)) = true ->
         exists r sm' w' obs,
           sample_of_run (now w) (dig w (probes w)) = Returns r
           /\ Script.monitor_body domain expected_ttl start_time sm w
              = (Returns sm', w')
           /\ Script.observations sm' = Script.observations sm ++ [obs]
           /\ Script.elapsed_since_start obs = (now w - start_time)%Q
           /\ Script.observed obs = r
           /\ Script.status obs = cache_indicator r
           /\ (Script.expiry_reported obs = true
               <-> Script.status obs = Fresh
                   /\ Script.near_expected_expiry
                        (Script.elapsed_since_start obs) expected_ttl = true)
           /\ (expected_ttl = 30%Z -> (now w - start_time == 28)%Q ->
               (Script.expiry_reported obs = true <-> Script.status obs = Fresh)
               /\ (Script.status obs = Cached ->
                   Script.expiry_reported obs = false))
           /\ (expected_ttl = 30%Z -> (now w - start_time == 10)%Q ->
               Script.expiry_reported obs = false))
  /\ (forall (fuel : nat) (domain : string) (expected_ttl : Z)
             (test_duration : option Q) (w : World),
         (forall k, undisturbed (dig w k) = true) ->
         (forall k, (0 <= took (dig w k))%Q) ->
         (effective_duration expected_ttl test_duration
          <= 10 * inject_Z (Z.of_nat fuel))%Q ->
         exists sm w',
           Script.monitor_cache_ttl (S fuel) domain expected_ttl test_duration w
           = (Returns (Some sm), w')
           /\ Forall (fun obs =>
                        Script.status obs = cache_indicator (Script.observed obs)
                        /\ (Script.expiry_reported obs = true
                            <-> Script.status obs = Fresh
                                /\ Script.near_expected_expiry
                                     (Script.elapsed_since_start obs) expected_ttl
                                   = true))
                     (Script.observations sm)).
Proof.
  split; [exact near_expected_expiry_spec|].
  split; [|split; [reflexivity|split; [reflexivity|split]]].
  - intros elapsed expected_ttl.
    rewrite near_expected_expiry_spec, Qabs_Qlt_condition.
    split; intros [A B]; split; lra.
  - intros domain expected_ttl start_time sm w Hu.
    destruct (monitor_body_appends domain expected_ttl start_time sm w Hu)
      as (r & sm' & w' & obs & H1 & H2 & H3 & H4 & H5 & H6 & H7).
    exists r, sm', w', obs.
    split; [exact H1|]. split; [exact H2|]. split; [exact H3|].
    split; [exact H4|]. split; [exact H5|]. split; [exact H6|].
    rewrite H4, H7. split; [|split].
    + destruct (Script.status obs); intuition congruence.
    + intros -> He. change (inject_Z 30) with 30%Q in *.
      assert (Hn : Script.near_expected_expiry (now w - start_time) 30 = true).
      { apply near_expected_expiry_spec. change (inject_Z 30) with 30%Q.
        split; lra. }
      rewrite Hn. destruct (Script.status obs); split;
        first [discriminate | reflexivity | intuition congruence].
    + intros -> He. destruct (Script.status obs); try reflexivity.
      destruct (Script.near_expected_expiry (now w - start_time) 30) eqn:Hn;
        [|reflexivity].
      apply near_expected_expiry_spec in Hn.
      change (inject_Z 30) with 30%Q in Hn. lra.
  - intros fuel domain expected_ttl test_duration w Hu Ht Hd.
    unfold Script.monitor_cache_ttl. unfold bind at 1, time_time at 1.
    unfold bind at 1. rewrite query_dns_run.
    destruct (sample_of_run_undisturbed (now w) _ (Hu (probes w))) as [first Hf].
    rewrite Hf. fold (effective_duration expected_ttl test_duration).
    set (sm0 := {| Script.initial := first; Script.observations := [];
                   Script.cache_hits := 0; Script.query_count := 0 |}).
    destruct (monitor_loop_ends domain expected_ttl
                (effective_duration expected_ttl test_duration) (now w) fuel
                sm0 (after_dig domain w)) as (sm & w' & Hrun).
    + exact Hu.
    + exact Ht.
    + cbn [after_dig now]. pose proof (Ht (probes w)) as H0. lra.
    + exists sm, w'. split; [exact Hrun|].
      pose proof (monitor_loop_observations domain expected_ttl
                    (effective_duration expected_ttl test_duration) (now w)
                    (S fuel) sm0 (after_dig domain w)) as H.
      rewrite Hrun in H. cbn [fst] in H.
      assert (H0 : Forall (observation_ok expected_ttl) (Script.observations sm0))
        by constructor.
      apply H in H0. apply (Forall_impl _ _ _ H0).
      intros obs [H1 H2]. split; [exact H1|]. rewrite H2.
      destruct (Script.status obs); intuition congruence.
Qed.

Lemma expiry_reported_iff_fresh_and_near_witness :
  (exists sm w',
      Script.monitor_cache_ttl 10 "example.com" 30 None (world0 None warming_up)
      = (Returns (Some sm), w')
      /\ Forall (fun obs =>
                   Script.status obs = cache_indicator (Script.observed obs)
                   /\ (Script.expiry_reported obs = true
                       <-> Script.status obs = Fresh
                           /\ Script.near_expected_expiry
                                (Script.elapsed_since_start obs) 30 = true))
                (Script.observations sm))
  /\ (exists sm' w' obs,
         Script.monitor_body "example.com" 30 0 no_observations late_world
         = (Returns sm', w')
         /\ Script.observations sm' = [obs]
         /\ Script.status obs = Cached
         /\ Script.expiry_reported obs = false).
Proof.
  split.
  - apply (proj2 (proj2 (proj2 (proj2 (proj2 expiry_reported_iff_fresh_and_near))))
             9%nat "example.com"%string 30%Z None (world0 None warming_up)).
    + intros [|[|[|k]]]; reflexivity.
    + intros [|[|[|k]]]; unfold Qle; simpl; lia.
    + unfold Qle. simpl. lia.
  - destruct (proj1 (proj2 (proj2 (proj2 (proj2 expiry_reported_iff_fresh_and_near))))
                "example.com"%string 30%Z 0%Q no_observations late_world eq_refl)
      as (r & sm' & w' & obs & H1 & H2 & H3 & _ & _ & H6 & _ & H8 & _).
    vm_compute in H1. injection H1 as <-.
    assert (Hc : Script.status obs = Cached) by (rewrite H6; reflexivity).
    exists sm', w', obs. split; [exact H2|]. split; [exact H3|].
    split; [exact Hc|].
    apply (proj2 (H8 eq_refl ltac:(vm_compute; reflexivity))). exact Hc.
Defined.

(** * Further properties of the script *)

(** ** Reading rules: failures, windows and fields *)

(** X1: when the rules cannot be read there is no rule: a non-zero exit
    status of [defaults read], or an exception raised by running it, makes
    [get_cache_rule] return [None]; with the key missing from the
    preferences the lookup returns [None] and leaves the world as it was. *)
Theorem unread_rules_give_no_rule :
  (forall (p : CompletedProcess) (domain : string),
      returncode p <> 0%Z ->
      CacheRule.get_cache_rule (Returns p) domain = Returns None)
  /\ (forall (e : exn) (domain : string),
         CacheRule.get_cache_rule (Raises e) domain = Returns None)
  /\ (forall (w : World) (domain : string),
         prefs w !! "DomainCacheRules"%string = None ->
         Script.get_cache_rule domain w = (Returns None, w)).
Proof.
  split; [|split].
  - intros p domain H. unfold CacheRule.get_cache_rule, CacheRule.get_cache_rule_try.
    simpl. apply Z.eqb_neq in H. rewrite H. reflexivity.
  - reflexivity.
  - intros w domain H. unfold Script.get_cache_rule, defaults_read. cbn [fst].
    rewrite H. reflexivity.
Qed.

Lemma unread_rules_give_no_rule_witness :
  CacheRule.get_cache_rule (exited 1 EmptyString) "example.com" = Returns None
  /\ Script.get_cache_rule "example.com" (world0 None steady)
     = (Returns None, world0 None steady).
Proof.
  split.
  - apply (proj1 unread_rules_give_no_rule
             {| returncode := 1; stdout := EmptyString; stderr := EmptyString |}).
    discriminate.
  - apply (proj2 (proj2 unread_rules_give_no_rule)). reflexivity.
Defined.

(** X2: only the first matching line and the four lines after it count.
    Two dumps that were read, whose first matching line is the same and is
    followed by the same four lines, give the same result, whatever stands
    before the match (as long as it does not match) and after the window. *)
Theorem lines_outside_window_are_ignored (p p' : CompletedProcess)
  (domain : string) (pre pre' post post' : list string) (l : string) :
  returncode p = 0%Z ->
  returncode p' = 0%Z ->
  dump_lines p = pre ++ l :: post ->
  dump_lines p' = pre' ++ l :: post' ->
  Forall (fun x => CacheRule.line_matches domain x = Returns false) pre ->
  Forall (fun x => CacheRule.line_matches domain x = Returns false) pre' ->
  CacheRule.line_matches domain l = Returns true ->
  firstn 4 post = firstn 4 post' ->
  CacheRule.get_cache_rule (Returns p) domain
  = CacheRule.get_cache_rule (Returns p') domain.
Proof.
  intros Hrc Hrc' Hl Hl' Hpre Hpre' Hm H4.
  rewrite (get_cache_rule_first_match p domain pre post l Hrc Hl Hpre Hm).
  rewrite (get_cache_rule_first_match p' domain pre' post' l Hrc' Hl' Hpre' Hm).
  change (firstn 5 (l :: post)) with (l :: firstn 4 post).
  change (firstn 5 (l :: post')) with (l :: firstn 4 post').
  rewrite H4. reflexivity.
Qed.

Lemma lines_outside_window_are_ignored_witness :
  CacheRule.get_cache_rule (Returns (dump padded_rules)) "sub.example.com"
  = CacheRule.get_cache_rule (Returns (dump trailing_rules)) "sub.example.com".
Proof.
  apply (lines_outside_window_are_ignored (dump padded_rules) (dump trailing_rules)
           "sub.example.com" [ "// rules"%string ] []
           (example_other_lines ++ [ "//"; "action = allow;" ]%string)
           (example_other_lines ++ [ "//"; "ttl = 5;" ]%string)
           example_first_line).
  - reflexivity.
  - reflexivity.
  - reflexivity.
  - reflexivity.
  - apply Forall_cons. split; [reflexivity | constructor].
  - constructor.
  - reflexivity.
  - reflexivity.
Defined.

(** X3: what one line of the window can do. A line that contains [action]
    sets the action and never the TTL, even when it also contains [ttl]; it
    can only fail for want of an [=]. Any other line that contains [ttl] sets
    the TTL and never the action; it can only fail for want of an [=] or of
    an integer after it. A line that contains neither changes nothing. *)
Theorem one_line_sets_one_field (r : Rule) (line : string) :
  match CacheRule.read_field r line with
  | Returns r' =>
      if PyStr.contains "action" line then ttl r' = ttl r /\ action r' <> None
      else if PyStr.contains "ttl" line then action r' = action r /\ ttl r' <> None
      else r' = r
  | Raises e =>
      (PyStr.contains "action" line = true /\ e = IndexError)
      \/ (PyStr.contains "action" line = false
          /\ PyStr.contains "ttl" line = true
          /\ (e = IndexError \/ e = ValueError))
  end.
Proof.
  unfold CacheRule.read_field.
  destruct (PyStr.contains "action" line).
  - unfold PyStr.item.
    destruct (nth_error (PyStr.split "="%char line) 1); simpl; [|auto].
    split; [reflexivity | discriminate].
  - destruct (PyStr.contains "ttl" line); [|reflexivity].
    unfold PyStr.item.
    destruct (nth_error (PyStr.split "="%char line) 1) as [v|]; simpl; [|auto 6].
    match goal with
    | |- context [PyStr.int ?x] =>
        destruct (int_outcomes x) as [[z Hz]|Hz]; rewrite Hz
    end; simpl; [|auto 6].
    split; [reflexivity | discriminate].
Qed.

Lemma fields_of_window_app (a b : list string) (r : Rule) :
  fields_of_window (a ++ b) r
  = match fields_of_window a r with
    | Returns r1 => fields_of_window b r1
    | Raises e => Raises e
    end.
Proof.
  revert r. induction a as [|x a IH]; intros r; simpl; [reflexivity|].
  destruct (CacheRule.read_field r x); [apply IH | reflexivity].
Qed.

Lemma read_field_keeps_action (r r' : Rule) (line : string) :
  PyStr.contains "action" line = false ->
  CacheRule.read_field r line = Returns r' -> action r' = action r.
Proof.
  unfold CacheRule.read_field. intros ->.
  destruct (PyStr.contains "ttl" line); [|congruence].
  destruct (PyStr.item (PyStr.split "="%char line) 1) as [v|]; simpl; [|discriminate].
  destruct (PyStr.int (PyStr.strip_chars CacheRule.ttl_trim v)); simpl;
    [|discriminate].
  intros H. injection H as <-. reflexivity.
Qed.

Lemma window_keeps_action (window : list string) (r r' : Rule) :
  Forall (fun x => PyStr.contains "action" x = false) window ->
  fields_of_window window r = Returns r' -> action r' = action r.
Proof.
  intros H. revert r. induction H as [|x window Hx _ IH]; intros r; simpl.
  - congruence.
  - destruct (CacheRule.read_field r x) as [r1|] eqn:E; [|discriminate].
    intros H'. rewrite (IH _ H'). exact (read_field_keeps_action _ _ _ Hx E).
Qed.

Lemma first_match_window (p : CompletedProcess) (domain : string)
  (pre post : list string) (l : string) (r : Rule) :
  returncode p = 0%Z ->
  dump_lines p = pre ++ l :: post ->
  Forall (fun x => CacheRule.line_matches domain x = Returns false) pre ->
  CacheRule.line_matches domain l = Returns true ->
  CacheRule.get_cache_rule (Returns p) domain = Returns (Some r) ->
  fields_of_window (firstn 5 (l :: post)) empty_rule = Returns r.
Proof.
  intros Hrc Hl Hpre Hm.
  rewrite (get_cache_rule_first_match p domain pre post l Hrc Hl Hpre Hm).
  unfold rule_of_window.
  destruct (fields_of_window (firstn 5 (l :: post)) empty_rule); congruence.
Qed.

(** X4: within the window a later line overwrites an earlier one. When the
    lookup returns a rule and the window of the first matching line splits
    into lines, a line that contains [action], and lines that do not, the
    action of the rule is the value after the first [=] of that line, with
    blanks, double quotes and semicolons stripped from both ends. *)
Theorem last_action_line_wins (p : CompletedProcess) (domain : string)
  (pre post w1 w2 : list string) (l line : string) (r : Rule) :
  returncode p = 0%Z ->
  dump_lines p = pre ++ l :: post ->
  Forall (fun x => CacheRule.line_matches domain x = Returns false) pre ->
  CacheRule.line_matches domain l = Returns true ->
  CacheRule.get_cache_rule (Returns p) domain = Returns (Some r) ->
  firstn 5 (l :: post) = w1 ++ line :: w2 ->
  PyStr.contains "action" line = true ->
  Forall (fun x => PyStr.contains "action" x = false) w2 ->
  exists v,
    PyStr.item (PyStr.split "="%char line) 1 = Returns v
    /\ action r = Some (PyStr.strip_chars CacheRule.action_trim v).
Proof.
  intros Hrc Hl Hpre Hm Hres Hw Ha Hw2.
  pose proof (first_match_window p domain pre post l r Hrc Hl Hpre Hm Hres) as H.
  rewrite Hw, fields_of_window_app in H.
  destruct (fields_of_window w1 empty_rule) as [r1|]; [|discriminate].
  simpl in H. unfold CacheRule.read_field in H. rewrite Ha in H.
  destruct (PyStr.item (PyStr.split "="%char line) 1) as [v|]; [|discriminate].
  simpl in H. exists v. split; [reflexivity|].
  rewrite (window_keeps_action _ _ _ Hw2 H). reflexivity.
Qed.

Lemma last_action_line_wins_witness :
  exists v,
    PyStr.item (PyStr.split "="%char "action = block;") 1 = Returns v
    /\ action {| action := Some "block"%string; ttl := Some 60%Z |}
       = Some (PyStr.strip_chars CacheRule.action_trim v).
Proof.
  apply (last_action_line_wins
           (dump (join newline ("example.com"%string :: twice_named_window)))
           "example.com" [] twice_named_window
           [ "example.com"; "action = allow;"; "ttl = 60;" ]%string
           [ "};"%string ] "example.com" "action = block;").
  - reflexivity.
  - reflexivity.
  - constructor.
  - reflexivity.
  - reflexivity.
  - reflexivity.
  - reflexivity.
  - apply Forall_cons. split; [reflexivity | constructor].
Defined.

Lemma fields_of_window_origin (window : list string) (r0 r : Rule) :
  fields_of_window window r0 = Returns r ->
  (action r <> None <->
   action r0 <> None \/ Exists (fun x => PyStr.contains "action" x = true) window)
  /\ (ttl r <> None <->
      ttl r0 <> None
      \/ Exists (fun x => PyStr.contains "action" x = false
                          /\ PyStr.contains "ttl" x = true) window).
Proof.
  revert r0. induction window as [|x window IH]; intros r0; simpl.
  - intros H. injection H as <-. rewrite !Exists_nil. tauto.
  - destruct (CacheRule.read_field r0 x) as [r1|] eqn:E; [|discriminate].
    intros H. destruct (IH _ H) as [IHa IHt]. rewrite IHa, IHt, !Exists_cons.
    unfold CacheRule.read_field in E.
    destruct (PyStr.contains "action" x) eqn:Ea.
    + destruct (PyStr.item (PyStr.split "="%char x) 1); [|discriminate].
      simpl in E. injection E as <-. simpl.
      split; split; intros; try tauto; try (left; discriminate).
      intuition congruence.
    + destruct (PyStr.contains "ttl" x) eqn:Et.
      * destruct (PyStr.item (PyStr.split "="%char x) 1) as [v|]; [|discriminate].
        simpl in E.
        destruct (PyStr.int (PyStr.strip_chars CacheRule.ttl_trim v));
          [|discriminate].
        simpl in E. injection E as <-. simpl.
        split; split; intros; try tauto; try (left; discriminate).
        intuition congruence.
      * injection E as <-. intuition congruence.
Qed.

(** X5: a field of the returned rule comes from the window and from
    nowhere else. When the lookup returns a rule, the rule has an action iff
    some line of the window of the first matching line contains [action], and
    it has a TTL iff some line of that window contains [ttl] and not
    [action]. *)
Theorem fields_come_from_window (p : CompletedProcess) (domain : string)
  (pre post : list string) (l : string) (r : Rule) :
  returncode p = 0%Z ->
  dump_lines p = pre ++ l :: post ->
  Forall (fun x => CacheRule.line_matches domain x = Returns false) pre ->
  CacheRule.line_matches domain l = Returns true ->
  CacheRule.get_cache_rule (Returns p) domain = Returns (Some r) ->
  (action r <> None <->
   Exists (fun x => PyStr.contains "action" x = true) (firstn 5 (l :: post)))
  /\ (ttl r <> None <->
      Exists (fun x => PyStr.contains "action" x = false
                       /\ PyStr.contains "ttl" x = true) (firstn 5 (l :: post))).
Proof.
  intros Hrc Hl Hpre Hm Hres.
  pose proof (first_match_window p domain pre post l r Hrc Hl Hpre Hm Hres) as H.
  destruct (fields_of_window_origin _ _ _ H) as [Ha Ht].
  rewrite Ha, Ht. simpl. intuition congruence.
Qed.

Lemma fields_come_from_window_witness :
  (action {| action := Some "block"%string; ttl := Some 120%Z |} <> None <->
   Exists (fun x => PyStr.contains "action" x = true)
          (firstn 5 (example_first_line :: example_other_lines)))
  /\ (ttl {| action := Some "block"%string; ttl := Some 120%Z |} <> None <->
      Exists (fun x => PyStr.contains "action" x = false
                       /\ PyStr.contains "ttl" x = true)
             (firstn 5 (example_first_line :: example_other_lines))).
Proof.
  apply (fields_come_from_window (dump example_rules) "sub.example.com" []
           example_other_lines example_first_line).
  - reflexivity.
  - reflexivity.
  - constructor.
  - reflexivity.
  - reflexivity.
Defined.

(** ** Matching is by substring *)

Lemma occurs_in_trans (a b c : string) :
  occurs_in a b -> occurs_in b c -> occurs_in a c.
Proof.
  intros (p1 & q1 & H1) (p2 & q2 & H2).
  exists (p2 ++ p1)%string, (q1 ++ q2)%string.
  rewrite H2, H1, !append_assoc. reflexivity.
Qed.

(** X6: the match is a substring test, so a lookup is also matched by lines
    written for longer names: if the looked-up domain occurs in a name (a
    subdomain of it, say) and a line contains that name, the line matches
    the lookup. *)
Theorem lines_for_longer_names_match (domain name line : string) :
  occurs_in domain name ->
  PyStr.contains name line = true ->
  CacheRule.line_matches domain line = Returns true.
Proof.
  intros Hd Hn. unfold CacheRule.line_matches.
  assert (H : PyStr.contains domain line = true).
  { apply contains_occurs. apply (occurs_in_trans _ name); [exact Hd|].
    apply contains_occurs. exact Hn. }
  rewrite H. reflexivity.
Qed.

Lemma lines_for_longer_names_match_witness :
  CacheRule.line_matches "example.com" "myexample.com.evil.org = {" = Returns true.
Proof.
  apply (lines_for_longer_names_match "example.com" "myexample.com.evil.org").
  - exists "my"%string, ".evil.org"%string. reflexivity.
  - reflexivity.
Defined.

Lemma split_nonempty (c : ascii) (s : string) : PyStr.split c s <> [].
Proof.
  destruct s as [|a s]; simpl; [discriminate|].
  destruct (Ascii.eqb a c); [discriminate|].
  destruct (PyStr.split c s); discriminate.
Qed.

(** X7: the empty domain matches every line, so for a dump that was read
    the lookup of the empty domain is decided by the first five lines of the
    dump, whatever they are. *)
Theorem empty_domain_matches_first_line (p : CompletedProcess) :
  returncode p = 0%Z ->
  (forall line, CacheRule.line_matches EmptyString line = Returns true)
  /\ CacheRule.get_cache_rule (Returns p) EmptyString
     = Returns (rule_of_window (firstn 5 (dump_lines p))).
Proof.
  intros Hrc.
  assert (Hall : forall line, CacheRule.line_matches EmptyString line = Returns true).
  { intros line. unfold CacheRule.line_matches. destruct line; reflexivity. }
  split; [exact Hall|].
  pose proof (split_nonempty newline (PyStr.strip (stdout p))) as Hne.
  destruct (dump_lines p) as [|l post] eqn:E; [contradiction|].
  apply (get_cache_rule_first_match p EmptyString [] post l Hrc E);
    [constructor | apply Hall].
Qed.

Lemma empty_domain_matches_first_line_witness :
  (forall line, CacheRule.line_matches EmptyString line = Returns true)
  /\ CacheRule.get_cache_rule (Returns (dump example_rules)) EmptyString
     = Returns (rule_of_window (firstn 5 (dump_lines (dump example_rules)))).
Proof.
  apply (empty_domain_matches_first_line (dump example_rules)). reflexivity.
Defined.

(** ** Splitting loses nothing *)

Lemma join_cons (c : ascii) (x : string) (l : list string) :
  l <> [] -> join c (x :: l) = (x ++ String c (join c l))%string.
Proof. destruct l; [congruence | reflexivity]. Qed.

(** X8: splitting a text at a character loses nothing: joining the pieces
    with that character gives the text back, no piece contains the character,
    and there is always at least one piece. So the lines [get_cache_rule]
    scans are exactly the lines of the stripped dump. *)
Theorem split_join_round_trip (c : ascii) (s : string) :
  join c (PyStr.split c s) = s
  /\ Forall (fun piece => free_of c piece = true) (PyStr.split c s)
  /\ PyStr.split c s <> [].
Proof.
  split; [|split; [|apply split_nonempty]].
  - induction s as [|a s IH]; [reflexivity|]. simpl.
    destruct (Ascii.eqb a c) eqn:E.
    + apply Ascii.eqb_eq in E. subst a.
      rewrite join_cons by apply split_nonempty. rewrite IH. reflexivity.
    + pose proof (split_nonempty c s) as Hne.
      destruct (PyStr.split c s) as [|h t]; [contradiction|].
      destruct t as [|h' t].
      * simpl in *. congruence.
      * rewrite join_cons by discriminate.
        rewrite join_cons in IH by discriminate.
        rewrite append_cons. congruence.
  - induction s as [|a s IH]; simpl.
    + repeat constructor.
    + destruct (Ascii.eqb a c) eqn:E.
      * constructor; [reflexivity | exact IH].
      * destruct (PyStr.split c s) as [|h t]; [repeat constructor; simpl; rewrite E; reflexivity|].
        apply Forall_cons in IH. destruct IH as [Hh Ht].
        constructor; [simpl; rewrite E; exact Hh | exact Ht].
Qed.

(** ** One probe, whatever happens *)

(** X9: [query_dns] lets an exception through exactly when running [dig]
    raised it and it is not the timeout; in every case it has made exactly
    one invocation of [dig], has advanced the clock by the time the
    invocation took, and has left the preferences alone. *)
Theorem query_dns_raises_only_what_dig_raised (domain : string) (w : World) :
  (forall e, fst (Script.query_dns domain w) = Raises e
             <-> ended (dig w (probes w)) = Raises e /\ e <> TimeoutExpired)
  /\ probes (snd (Script.query_dns domain w)) = S (probes w)
  /\ now (snd (Script.query_dns domain w)) = (now w + took (dig w (probes w)))%Q
  /\ prefs (snd (Script.query_dns domain w)) = prefs w
  /\ journal (snd (Script.query_dns domain w)) = Probe domain :: journal w.
Proof.
  rewrite query_dns_run. cbn [fst snd after_dig probes now prefs journal].
  split; [|repeat split].
  intros e. unfold sample_of_run.
  destruct (ended (dig w (probes w))) as [p|e0].
  - split; [discriminate | intros [H _]; discriminate].
  - destruct e0; intuition congruence.
Qed.

(** X10: when [dig] exits, with whatever status, [query_dns] returns a
    sample whose latency is the time the invocation took, in milliseconds,
    whose answer is the stripped output, and whose error is absent iff the
    exit status is zero; with a non-zero status the error is the stripped
    error stream, which may be empty. *)
Theorem query_dns_of_an_exit (domain : string) (w : World) (p : CompletedProcess) :
  ended (dig w (probes w)) = Returns p ->
  exists s,
    fst (Script.query_dns domain w) = Returns s
    /\ (time_ms s == took (dig w (probes w)) * 1000)%Q
    /\ result s = Some (PyStr.strip (stdout p))
    /\ (error s = None <-> returncode p = 0%Z)
    /\ (returncode p <> 0%Z -> error s = Some (PyStr.strip (stderr p))).
Proof.
  intros H. rewrite query_dns_run. unfold sample_of_run. rewrite H.
  eexists. split; [reflexivity|]. cbn [time_ms result error].
  split; [ring|]. split; [reflexivity|].
  destruct (returncode p =? 0)%Z eqn:E.
  - apply Z.eqb_eq in E. split; [tauto | congruence].
  - apply Z.eqb_neq in E. split; [split; [discriminate | congruence] | reflexivity].
Qed.

Lemma query_dns_of_an_exit_witness :
  exists s,
    fst (Script.query_dns "example.com" (world0 None (fun _ => refused))) = Returns s
    /\ (time_ms s == 0.02 * 1000)%Q
    /\ result s = Some EmptyString
    /\ (error s = None <-> 9%Z = 0%Z)
    /\ (9%Z <> 0%Z -> error s = Some "no servers could be reached"%string).
Proof.
  apply (query_dns_of_an_exit "example.com" (world0 None (fun _ => refused))
           {| returncode := 9; stdout := EmptyString;
              stderr := ("no servers could be reached" ++ nl)%string |}).
  reflexivity.
Defined.

(** ** Probing touches nothing but the resolver and the clock *)

Lemma quiet_refl (w : World) : only_probes_and_sleeps w w.
Proof.
  split; [reflexivity|]. split; [reflexivity|].
  exists []. split; [reflexivity|]. split; [constructor | simpl; lia].
Qed.

Lemma quiet_trans (w1 w2 w3 : World) :
  only_probes_and_sleeps w1 w2 -> only_probes_and_sleeps w2 w3 ->
  only_probes_and_sleeps w1 w3.
Proof.
  intros (P1 & D1 & n1 & J1 & F1 & C1) (P2 & D2 & n2 & J2 & F2 & C2).
  split; [congruence|]. split; [congruence|].
  exists (n2 ++ n1). split; [rewrite J2, J1, app_assoc; reflexivity|].
  split; [apply Forall_app; split; assumption|].
  rewrite List.filter_app, length_app. lia.
Qed.

Lemma quiet_after_dig (domain : string) (w : World) :
  only_probes_and_sleeps w (after_dig domain w).
Proof.
  split; [reflexivity|]. split; [reflexivity|].
  exists [Probe domain]. split; [reflexivity|].
  split; [repeat constructor | simpl; lia].
Qed.

Lemma quiet_sleep (seconds : Q) (w : World) :
  only_probes_and_sleeps w (snd (time_sleep seconds w)).
Proof.
  unfold time_sleep. destruct (Qltb seconds 0); [apply quiet_refl|]. cbn [snd].
  split; [reflexivity|]. split; [reflexivity|].
  exists [Sleep seconds]. split; [reflexivity|].
  split; [repeat constructor | simpl; lia].
Qed.

Lemma query_loop_quiet (domain : string) (iterations : nat) (delay : Q)
  (js : list nat) :
  forall (times : list Q) (printed : list Script.QueryLine) (w : World),
    only_probes_and_sleeps w
      (snd (Script.query_loop domain iterations delay js times printed w)).
Proof.
  induction js as [|i js IH]; intros times printed w.
  - apply quiet_refl.
  - rewrite query_loop_cons, query_dns_run.
    destruct (sample_of_run (now w) (dig w (probes w))) as [s|e];
      [|apply quiet_after_dig].
    cbv zeta. destruct (_ <? _)%Z.
    + destruct (Qltb delay 0) eqn:E; [apply quiet_after_dig|].
      eapply quiet_trans; [|apply IH].
      eapply quiet_trans; [apply quiet_after_dig|].
      pose proof (quiet_sleep delay (after_dig domain w)) as H.
      unfold time_sleep in H. rewrite E in H. exact H.
    + eapply quiet_trans; [apply quiet_after_dig | apply IH].
Qed.

Lemma test_domain_cache_quiet (domain : string) (n : nat) (delay : Q) (w : World) :
  only_probes_and_sleeps w (snd (Script.test_domain_cache domain n delay w)).
Proof.
  rewrite test_domain_cache_unfold.
  pose proof (query_loop_quiet domain n delay (CacheRule.range 0 n) [] [] w) as H.
  destruct (Script.query_loop domain n delay (CacheRule.range 0 n) [] [] w)
    as [[tp|e] w']; [|exact H].
  destruct (statistics_of (fst tp)); exact H.
Qed.

Lemma monitor_body_quiet (domain : string) (expected_ttl : Z) (start_time : Q)
  (sm : Script.MonitorSummary) (w : World) :
  only_probes_and_sleeps w
    (snd (Script.monitor_body domain expected_ttl start_time sm w)).
Proof.
  pose proof (monitor_body_run domain expected_ttl start_time sm w) as H.
  destruct (sample_of_run (now w) (dig w (probes w))) as [r|e].
  - destruct H as [sm' H]. rewrite H. cbn [snd].
    eapply quiet_trans; [apply quiet_after_dig | apply (quiet_sleep 10)].
  - rewrite H. apply quiet_after_dig.
Qed.

Lemma monitor_loop_quiet (domain : string) (expected_ttl : Z)
  (test_duration start_time : Q) (fuel : nat) :
  forall (sm : Script.MonitorSummary) (w : World),
    only_probes_and_sleeps w
      (snd (Script.monitor_loop fuel domain expected_ttl test_duration
              start_time sm w)).
Proof.
  induction fuel as [|fuel IH]; intros sm w.
  - apply quiet_refl.
  - cbn [Script.monitor_loop]. unfold bind at 1, time_time at 1.
    destruct (Qltb (now w - start_time) test_duration); [|apply quiet_refl].
    unfold bind at 1.
    pose proof (monitor_body_quiet domain expected_ttl start_time sm w) as H.
    destruct (Script.monitor_body domain expected_ttl start_time sm w)
      as [[sm1|e] w1]; cbn [snd] in H; [|exact H].
    eapply quiet_trans; [exact H | apply IH].
Qed.

(** X11: the test run and the monitor never write a preference, whether
    they end or raise: after [test_domain_cache] and after
    [monitor_cache_ttl] the preferences are what they were, the journal has
    grown by probes and sleeps only, and [dig] was invoked once per probe in
    it. *)
Theorem probing_leaves_preferences_alone :
  (forall (domain : string) (n : nat) (delay : Q) (w : World),
      only_probes_and_sleeps w (snd (Script.test_domain_cache domain n delay w)))
  /\ (forall (fuel : nat) (domain : string) (expected_ttl : Z)
             (test_duration : option Q) (w : World),
         only_probes_and_sleeps w
           (snd (Script.monitor_cache_ttl fuel domain expected_ttl
                   test_duration w))).
Proof.
  split; [exact test_domain_cache_quiet|].
  intros fuel domain expected_ttl test_duration w.
  unfold Script.monitor_cache_ttl. unfold bind at 1, time_time at 1.
  unfold bind at 1. rewrite query_dns_run.
  destruct (sample_of_run (now w) (dig w (probes w))) as [first|e];
    [|apply quiet_after_dig].
  eapply quiet_trans; [apply quiet_after_dig | apply monitor_loop_quiet].
Qed.

(** ** The report of a test run *)

Lemma query_loop_returns (domain : string) (iterations : nat) (delay : Q)
  (js : list nat) :
  forall (times : list Q) (printed : list Script.QueryLine) (w : World)
         (res : list Q * list Script.QueryLine) (w' : World),
    Script.query_loop domain iterations delay js times printed w = (Returns res, w') ->
    exists new,
      res = (times ++ map (fun l => time_ms (Script.sample l)) new, printed ++ new)
      /\ Forall2 (fun j line => Script.number line = (j + 1)%nat /\ line_agrees line)
                 js new.
Proof.
  induction js as [|i js IH]; intros times printed w res w'.
  - simpl. unfold ret. intros H. injection H as <- <-.
    exists []. rewrite !app_nil_r. split; [reflexivity | constructor].
  - rewrite query_loop_cons.
    destruct (Script.query_dns domain w) as [[s|e] w1]; [|discriminate].
    cbv zeta. intros H.
    assert (exists w2, Script.query_loop domain iterations delay js
                         (times ++ [time_ms s])
                         (printed ++ [{| Script.number := i + 1; Script.sample := s;
                                         Script.indicator := cache_indicator s;
                                         Script.answered := status_ok s |}]) w2
                       = (Returns res, w')) as [w2 H2].
    { destruct (_ <? _)%Z; [destruct (Qltb delay 0); [discriminate|]|];
        eexists; exact H. }
    apply IH in H2. destruct H2 as (new & -> & HF).
    exists ({| Script.number := i + 1; Script.sample := s;
               Script.indicator := cache_indicator s;
               Script.answered := status_ok s |} :: new). split.
    + simpl map. rewrite <- !app_assoc. reflexivity.
    + constructor; [|exact HF]. repeat split.
Qed.

Lemma Forall2_seq_nth {A : Type} (P : nat -> A -> Prop) (k : nat) :
  forall (a : nat) (l : list A) (j : nat) (x : A),
    Forall2 P (seq a k) l -> nth_error l j = Some x -> P (a + j)%nat x.
Proof.
  induction k as [|k IH]; intros a l j x H Hj; simpl in H.
  - inversion H; subst. destruct j; discriminate.
  - inversion H as [|? y ? l' Hy Hl]; subst. destruct j as [|j]; simpl in Hj.
    + injection Hj as <-. rewrite Nat.add_0_r. exact Hy.
    + replace (a + S j)%nat with (S a + j)%nat by lia. exact (IH _ _ _ _ Hl Hj).
Qed.

(** X12: every report [test_domain_cache] returns is consistent with its
    samples. It has as many lines as iterations were asked for, and at least
    one; line [j] carries the number [j + 1], the label its latency gives and
    the answer mark its answer gives; the latencies listed are those of the
    lines, in order; the statistics and the verdict are those of that list. *)
Theorem report_agrees_with_samples (domain : string) (n : nat) (delay : Q)
  (w : World) :
  match fst (Script.test_domain_cache domain n delay w) with
  | Returns report =>
      List.length (Script.queries report) = n
      /\ (1 <= n)%nat
      /\ Script.times report
         = map (fun l => time_ms (Script.sample l)) (Script.queries report)
      /\ (forall j line,
             nth_error (Script.queries report) j = Some line ->
             Script.number line = (j + 1)%nat
             /\ Script.indicator line = cache_indicator (Script.sample line)
             /\ Script.answered line = status_ok (Script.sample line))
      /\ statistics_of (Script.times report) = Returns (Script.stats report)
      /\ Script.verdict report = detect_caching (Script.times report)
  | Raises _ => True
  end.
Proof.
  rewrite test_domain_cache_unfold.
  destruct (Script.query_loop domain n delay (CacheRule.range 0 n) [] [] w)
    as [[tp|e] w'] eqn:E; [|exact I].
  apply query_loop_returns in E. destruct E as (new & -> & HF).
  cbn [fst snd app].
  destruct (statistics_of (map (fun l => time_ms (Script.sample l)) new))
    as [st|e] eqn:Est; [|exact I].
  cbn [fst Script.queries Script.times Script.stats Script.verdict].
  assert (Hlen : List.length new = n).
  { apply Forall2_length in HF. unfold CacheRule.range in HF.
    rewrite length_seq in HF. lia. }
  split; [exact Hlen|]. split.
  { destruct new; [discriminate Est | simpl in Hlen; lia]. }
  split; [reflexivity|]. split; [|split; [exact Est | reflexivity]].
  intros j line Hj. unfold CacheRule.range in HF.
  destruct (Forall2_seq_nth _ _ _ _ _ _ HF Hj) as [H1 [H2 H3]].
  auto.
Qed.

(** ** A probe that is disturbed ends the run *)




(** ** The two passes of a comparison run *)

Lemma test_domain_cache_run (domain : string) (n : nat) (delay : Q) (w : World) :
  (1 <= n)%nat ->
  (0 <= delay)%Q ->
  (forall j, (j < n)%nat -> undisturbed (dig w (probes w + j)) = true) ->
  exists (report : Script.Report) (w' : World),
    Script.test_domain_cache domain n delay w = (Returns report, w')
    /\ List.length (Script.times report) = n
    /\ Script.cache_enabled report = cache_enabled_text w
    /\ probes w' = (probes w + n)%nat
    /\ prefs w' = prefs w
    /\ dig w' = dig w
    /\ journal w' = rev (probe_schedule domain delay n) ++ journal w.
Proof.
  intros Hn Hdelay Hu.
  destruct (query_loop_run domain n delay n Hdelay 0 [] [] w ltac:(lia) Hu)
    as (new & w' & Hrun & Hlen & Hp & Hf & Hd & Hj & _).
  rewrite test_domain_cache_unfold. unfold CacheRule.range.
  rewrite Nat.sub_0_r, Hrun. cbn [fst snd app].
  destruct (statistics_of_returns (map (fun l => time_ms (Script.sample l)) new))
    as [st Hst].
  { destruct new; [simpl in Hlen; lia | discriminate]. }
  rewrite Hst. eexists _, w'. split; [reflexivity|].
  cbn [Script.times Script.cache_enabled]. rewrite length_map. auto 10.
Qed.

Lemma bind_returns {A B : Type} (m : M A) (k : A -> M B) (w : World)
  (a : A) (w1 : World) :
  m w = (Returns a, w1) -> bind m k w = k a w1.
Proof. intros H. unfold bind. rewrite H. reflexivity. Qed.

Lemma compare_run (domain : string) (w : World) :
  (forall j, (j < 10)%nat -> undisturbed (dig w (probes w + j)) = true) ->
  exists (first second : Script.Report) (w' : World),
    Script.compare domain w = (Returns (first, second), w')
    /\ List.length (Script.times first) = 5%nat
    /\ List.length (Script.times second) = 5%nat
    /\ probes w' = (probes w + 10)%nat
    /\ journal w' = rev (compare_schedule domain) ++ journal w
    /\ prefs w' = <[ "UserCanAdjustCache"%string := "1"%string ]> (prefs w)
    /\ Script.cache_enabled first = cache_enabled_text w
    /\ Script.cache_enabled second = second_pass_text w.
Proof.
  intros Hu.
  assert (Hdelay : (0 <= 0.1)%Q) by (unfold Qle; simpl; lia).
  destruct (test_domain_cache_run domain 5 0.1 w ltac:(lia) Hdelay) as
    (r1 & w1 & H1 & L1 & E1 & P1 & F1 & D1 & J1).
  { intros j Hj. apply Hu. lia. }
  set (w3 := snd (time_sleep 2
                    (snd (defaults_write_bool "UserCanAdjustCache" false w1)))).
  destruct (test_domain_cache_run domain 5 0.1 w3 ltac:(lia) Hdelay) as
    (r2 & w4 & H2 & L2 & E2 & P2 & F2 & D2 & J2).
  { intros j Hj. unfold w3. sleep_const; cbn [after_sleep defaults_write_bool snd dig probes].
    rewrite D1, P1. replace (probes w + 5 + j)%nat with (probes w + (5 + j))%nat by lia.
    apply Hu. lia. }
  exists r1, r2, (snd (defaults_write_bool "UserCanAdjustCache" true w4)).
  split.
  { unfold Script.compare.
    rewrite (bind_returns _ _ _ _ _ H1).
    rewrite (bind_returns _ _ w1 written
               (snd (defaults_write_bool "UserCanAdjustCache" false w1)) eq_refl).
    rewrite (bind_returns (time_sleep 2) _
               (snd (defaults_write_bool "UserCanAdjustCache" false w1))
               tt w3 eq_refl).
    rewrite (bind_returns _ _ _ _ _ H2).
    reflexivity. }
  split; [exact L1|]. split; [exact L2|].
  cbn [defaults_write_bool snd probes journal prefs].
  split. { rewrite P2. unfold w3. sleep_const; cbn [after_sleep defaults_write_bool snd probes]. lia. }
  split.
  { rewrite J2. unfold w3. sleep_const; cbn [after_sleep defaults_write_bool snd journal].
    rewrite J1. unfold compare_schedule. rewrite !rev_app_distr, <- !app_assoc.
    reflexivity. }
  split.
  { rewrite F2. unfold w3. sleep_const; cbn [after_sleep defaults_write_bool snd prefs].
    rewrite F1. apply insert_insert_eq. }
  split; [exact E1|].
  rewrite E2. unfold cache_enabled_text, second_pass_text, w3.
  sleep_const; cbn [after_sleep defaults_write_bool snd prefs]. rewrite F1.
  rewrite lookup_insert_ne by discriminate.
  destruct (prefs w !! "EnableDNSCache"%string); [reflexivity|].
  rewrite lookup_insert_eq. reflexivity.
Qed.

(** X14: when none of its ten probes is disturbed, a comparison run ends
    with two reports of five samples each, after exactly ten invocations of
    [dig], and its steps are, in this order: five probes 0.1 seconds apart,
    the flag written as [0], a sleep of two seconds, five probes 0.1 seconds
    apart, the flag written as [1]. No preference other than the flag is
    changed. *)
Theorem compare_runs_two_passes (domain : string) (w : World) :
  (forall j, (j < 10)%nat -> undisturbed (dig w (probes w + j)) = true) ->
  exists (first second : Script.Report) (w' : World),
    Script.compare domain w = (Returns (first, second), w')
    /\ List.length (Script.times first) = 5%nat
    /\ List.length (Script.times second) = 5%nat
    /\ probes w' = (probes w + 10)%nat
    /\ journal w' = rev (compare_schedule domain) ++ journal w
    /\ prefs w' = <[ "UserCanAdjustCache"%string := "1"%string ]> (prefs w).
Proof.
  intros Hu.
  destruct (compare_run domain w Hu) as (r1 & r2 & w' & H & A & B & C & D & E & _).
  exists r1, r2, w'. auto 10.
Qed.

Lemma compare_runs_two_passes_witness :
  exists (first second : Script.Report) (w' : World),
    Script.compare "example.com" (world0 (Some "1"%string) steady)
    = (Returns (first, second), w')
    /\ List.length (Script.times first) = 5%nat
    /\ List.length (Script.times second) = 5%nat
    /\ probes w' = 10%nat
    /\ journal w' = rev (compare_schedule "example.com") ++ []
    /\ prefs w' = <[ "UserCanAdjustCache"%string := "1"%string ]>
                    (prefs (world0 (Some "1"%string) steady)).
Proof.
  apply (compare_runs_two_passes "example.com" (world0 (Some "1"%string) steady)).
  intros j Hj. reflexivity.
Defined.

(** X15: what the two passes of a comparison run print as the cache
    setting. The first pass prints what the preferences say. When
    [EnableDNSCache] is set (the managed setting), the second pass prints the
    same managed value, so the write of the flag does not show; otherwise
    the second pass prints [0], whatever the flag was. *)
Theorem compare_second_pass_setting (domain : string) (w : World) :
  (forall j, (j < 10)%nat -> undisturbed (dig w (probes w + j)) = true) ->
  exists (first second : Script.Report) (w' : World),
    Script.compare domain w = (Returns (first, second), w')
    /\ Script.cache_enabled first = cache_enabled_text w
    /\ Script.cache_enabled second = second_pass_text w
    /\ (is_Some (prefs w !! "EnableDNSCache"%string) ->
        Script.cache_enabled second = Script.cache_enabled first)
    /\ (prefs w !! "EnableDNSCache"%string = None ->
        Script.cache_enabled second = "0"%string).
Proof.
  intros Hu.
  destruct (compare_run domain w Hu) as (r1 & r2 & w' & H & _ & _ & _ & _ & _ & E1 & E2).
  exists r1, r2, w'. split; [exact H|]. split; [exact E1|]. split; [exact E2|].
  rewrite E1, E2. unfold cache_enabled_text, second_pass_text. split.
  - intros [v Hv]. rewrite Hv. reflexivity.
  - intros Hv. rewrite Hv. reflexivity.
Qed.

Lemma compare_second_pass_setting_witness :
  exists (first second : Script.Report) (w' : World),
    Script.compare "example.com" (world0 (Some "1"%string) steady)
    = (Returns (first, second), w')
    /\ Script.cache_enabled first = "1"%string
    /\ Script.cache_enabled second = "0"%string.
Proof.
  destruct (compare_second_pass_setting "example.com"
              (world0 (Some "1"%string) steady))
    as (r1 & r2 & w' & H & E1 & E2 & _).
  - intros j Hj. reflexivity.
  - exists r1, r2, w'. split; [exact H|]. split; [exact E1 | exact E2].
Defined.

(** ** The counters and the cadence of the monitor *)

Lemma monitor_body_returns (domain : string) (expected_ttl : Z) (start_time : Q)
  (sm sm' : Script.MonitorSummary) (w w' : World) :
  Script.monitor_body domain expected_ttl start_time sm w = (Returns sm', w') ->
  exists r,
    sample_of_run (now w) (dig w (probes w)) = Returns r
    /\ w' = snd (time_sleep 10 (after_dig domain w))
    /\ Script.observations sm'
       = Script.observations sm ++ [observe expected_ttl (now w - start_time) r]
    /\ Script.initial sm' = Script.initial sm
    /\ Script.query_count sm' = S (Script.query_count sm)
    /\ Script.cache_hits sm'
       = (if Qltb (time_ms r) 5 then S (Script.cache_hits sm)
          else Script.cache_hits sm).
Proof.
  unfold Script.monitor_body, bind, time_time. rewrite query_dns_run.
  destruct (sample_of_run (now w) (dig w (probes w))) as [r|e]; [|discriminate].
  sleep_const; cbn [after_sleep ret]. intros H. injection H as <- <-.
  exists r. unfold observe. repeat split.
Qed.

Lemma monitor_loop_invariant (Inv : Script.MonitorSummary -> World -> Prop)
  (domain : string) (expected_ttl : Z) (test_duration start_time : Q) :
  (forall sm w sm' w',
      Inv sm w ->
      Script.monitor_body domain expected_ttl start_time sm w = (Returns sm', w') ->
      Inv sm' w') ->
  forall (fuel : nat) (sm : Script.MonitorSummary) (w : World),
    Inv sm w ->
    match Script.monitor_loop fuel domain expected_ttl test_duration start_time
            sm w with
    | (Returns (Some sm'), w') => Inv sm' w'
    | _ => True
    end.
Proof.
  intros Hstep. induction fuel as [|fuel IH]; intros sm w HI.
  - exact I.
  - cbn [Script.monitor_loop]. unfold bind at 1, time_time at 1.
    destruct (Qltb (now w - start_time) test_duration); [|exact HI].
    unfold bind at 1.
    destruct (Script.monitor_body domain expected_ttl start_time sm w)
      as [[sm1|e] w1] eqn:E; [|exact I].
    apply IH. exact (Hstep _ _ _ _ HI E).
Qed.

Lemma is_cached_observe (expected_ttl : Z) (elapsed : Q) (r : Sample) :
  is_cached (observe expected_ttl elapsed r) = Qltb (time_ms r) 5.
Proof. unfold observe, is_cached. destruct (Qltb (time_ms r) 5); reflexivity. Qed.

(** X16: the counters of the monitor count what it observed. In every
    summary a monitoring run returns, the number of queries is the number of
    observations, the number of cache hits is the number of observations
    labelled [CACHED] and so is at most the number of queries, [dig] was
    invoked once for the priming probe and once per observation, and the
    initial sample is the record of the priming probe. *)
Theorem monitor_counts_its_observations (fuel : nat) (domain : string)
  (expected_ttl : Z) (test_duration : option Q) (w : World) :
  match Script.monitor_cache_ttl fuel domain expected_ttl test_duration w with
  | (Returns (Some sm), w') =>
      Script.query_count sm = List.length (Script.observations sm)
      /\ Script.cache_hits sm
         = List.length (List.filter is_cached (Script.observations sm))
      /\ (Script.cache_hits sm <= Script.query_count sm)%nat
      /\ probes w' = (probes w + 1 + Script.query_count sm)%nat
      /\ records (dig w (probes w)) (Script.initial sm)
  | _ => True
  end.
Proof.
  unfold Script.monitor_cache_ttl. unfold bind at 1, time_time at 1.
  unfold bind at 1. rewrite query_dns_run.
  destruct (sample_of_run (now w) (dig w (probes w))) as [first|e] eqn:Ef;
    [|exact I].
  set (Inv := fun (sm : Script.MonitorSummary) (w' : World) =>
              Script.query_count sm = List.length (Script.observations sm)
              /\ Script.cache_hits sm
                 = List.length (List.filter is_cached (Script.observations sm))
              /\ probes w' = (probes w + 1 + Script.query_count sm)%nat
              /\ Script.initial sm = first).
  assert (Hstep : forall sm w1 sm' w',
             Inv sm w1 ->
             Script.monitor_body domain expected_ttl (now w) sm w1 = (Returns sm', w') ->
             Inv sm' w').
  { intros sm w1 sm' w' (A & B & C & D) Hb.
    apply monitor_body_returns in Hb.
    destruct Hb as (r & _ & -> & Ho & Hi & Hq & Hc).
    unfold Inv. rewrite Ho, Hi, Hq, Hc, List.filter_app, !length_app.
    cbn [List.filter List.length]. rewrite is_cached_observe.
    sleep_const; cbn [after_sleep after_dig snd probes].
    destruct (Qltb (time_ms r) 5); cbn [List.length]; repeat split; try lia;
      assumption. }
  match goal with
  | |- match Script.monitor_loop ?f ?d ?t ?du ?st ?sm0 ?w0 with _ => _ end =>
      pose proof (monitor_loop_invariant Inv d t du st Hstep f sm0 w0) as H
  end.
  match type of H with ?P -> _ => assert (H0 : P) end.
  { unfold Inv. cbn. repeat split; lia. }
  specialize (H H0).
  match goal with
  | |- match ?m with _ => _ end => destruct m as [[[sm|]|e] w']
  end; try exact I.
  destruct H as (A & B & C & D).
  split; [exact A|]. split; [exact B|]. split.
  { rewrite A, B. apply List.filter_length_le. }
  split; [exact C|]. rewrite D. exists (now w). exact Ef.
Qed.

Lemma observe_ok (expected_ttl : Z) (elapsed : Q) (r : Sample) :
  observation_ok expected_ttl (observe expected_ttl elapsed r)
  /\ Script.elapsed_since_start (observe expected_ttl elapsed r) = elapsed.
Proof.
  unfold observation_ok, observe, cache_indicator.
  destruct (Qltb (time_ms r) 5) eqn:E; simpl; rewrite ?E; auto.
Qed.

Lemma StronglySorted_snoc {A : Type} (R : A -> A -> Prop) (l : list A) (x : A) :
  StronglySorted R l -> Forall (fun a => R a x) l -> StronglySorted R (l ++ [x]).
Proof.
  induction 1 as [|a l Hl IH Ha]; intros Hx; simpl.
  - constructor; constructor.
  - apply Forall_cons in Hx. destruct Hx as [Hax Hlx].
    constructor; [exact (IH Hlx)|].
    apply Forall_app. split; [exact Ha | constructor; [exact Hax | constructor]].
Qed.

Lemma none_reported (l : list Script.Observation) :
  Forall (fun b => Script.expiry_reported b = false) l ->
  List.filter Script.expiry_reported l = [].
Proof.
  induction 1 as [|b l Hb _ IH]; simpl; [reflexivity|]. rewrite Hb. exact IH.
Qed.

Lemma reported_is_near (expected_ttl : Z) (obs : Script.Observation) :
  observation_ok expected_ttl obs ->
  Script.expiry_reported obs = true ->
  Script.near_expected_expiry (Script.elapsed_since_start obs) expected_ttl = true.
Proof.
  intros [_ H] Hr. rewrite H in Hr. destruct (Script.status obs); congruence.
Qed.

Lemma at_most_one_report (expected_ttl : Z) (l : list Script.Observation) :
  StronglySorted ten_seconds_apart l ->
  Forall (observation_ok expected_ttl) l ->
  (List.length (List.filter Script.expiry_reported l) <= 1)%nat.
Proof.
  induction 1 as [|a l Hl IH Ha]; intros Hok; simpl; [lia|].
  apply Forall_cons in Hok. destruct Hok as [Hoka Hokl].
  destruct (Script.expiry_reported a) eqn:Ea; [|exact (IH Hokl)].
  rewrite none_reported; [simpl; lia|].
  pose proof (reported_is_near _ _ Hoka Ea) as Hna.
  unfold Script.near_expected_expiry in Hna.
  apply andb_true_iff in Hna. destruct Hna as [Hlo _]. apply Qltb_lt in Hlo.
  rewrite Forall_forall in Ha, Hokl |- *. intros b Hb.
  destruct (Script.expiry_reported b) eqn:Eb; [|reflexivity].
  pose proof (reported_is_near _ _ (Hokl b Hb) Eb) as Hnb.
  unfold Script.near_expected_expiry in Hnb.
  apply andb_true_iff in Hnb. destruct Hnb as [_ Hhi]. apply Qltb_lt in Hhi.
  pose proof (Ha b Hb) as Hab. unfold ten_seconds_apart in Hab. lra.
Qed.

(** X17: the cadence of the monitor. With a clock that does not run
    backwards, the observations of a monitoring run are taken at non-negative
    elapsed times, each at least ten seconds after the one before; as the
    window around the expected TTL is open and ten seconds wide, at most one
    observation of a run is reported as the expiry. *)
Theorem monitor_reports_expiry_at_most_once (fuel : nat) (domain : string)
  (expected_ttl : Z) (test_duration : option Q) (w : World) :
  (forall k, (0 <= took (dig w k))%Q) ->
  match Script.monitor_cache_ttl fuel domain expected_ttl test_duration w with
  | (Returns (Some sm), w') =>
      StronglySorted ten_seconds_apart (Script.observations sm)
      /\ Forall (fun obs => (0 <= Script.elapsed_since_start obs)%Q)
                (Script.observations sm)
      /\ (List.length (List.filter Script.expiry_reported (Script.observations sm))
          <= 1)%nat
  | _ => True
  end.
Proof.
  intros Ht.
  unfold Script.monitor_cache_ttl. unfold bind at 1, time_time at 1.
  unfold bind at 1. rewrite query_dns_run.
  destruct (sample_of_run (now w) (dig w (probes w))) as [first|e]; [|exact I].
  set (Inv := fun (sm : Script.MonitorSummary) (w' : World) =>
                dig w' = dig w
                /\ (now w <= now w')%Q
                /\ StronglySorted ten_seconds_apart (Script.observations sm)
                /\ Forall (fun obs => (0 <= Script.elapsed_since_start obs)%Q)
                          (Script.observations sm)
                /\ Forall (fun obs =>
                             (Script.elapsed_since_start obs + 10 <= now w' - now w)%Q)
                          (Script.observations sm)
                /\ Forall (observation_ok expected_ttl) (Script.observations sm)).
  assert (Hstep : forall sm w1 sm' w',
             Inv sm w1 ->
             Script.monitor_body domain expected_ttl (now w) sm w1 = (Returns sm', w') ->
             Inv sm' w').
  { intros sm w1 sm' w' (D & N & S & P & G & O) Hb.
    apply monitor_body_returns in Hb.
    destruct Hb as (r & _ & -> & Ho & _).
    destruct (observe_ok expected_ttl (now w1 - now w) r) as [Hok Hel].
    pose proof (Ht (probes w1)) as Htk. rewrite <- D in Htk.
    unfold Inv. rewrite Ho. sleep_const; cbn [after_sleep after_dig snd dig now].
    split; [exact D|]. split; [lra|]. split.
    { apply StronglySorted_snoc; [exact S|].
      apply (Forall_impl _ _ _ G). intros obs Hobs.
      unfold ten_seconds_apart. rewrite Hel. exact Hobs. }
    split.
    { apply Forall_app. split; [exact P|].
      constructor; [rewrite Hel; lra | constructor]. }
    split.
    { apply Forall_app. split.
      - apply (Forall_impl _ _ _ G). intros obs Hobs. lra.
      - constructor; [rewrite Hel; lra | constructor]. }
    apply Forall_app. split; [exact O | constructor; [exact Hok | constructor]]. }
  match goal with
  | |- match Script.monitor_loop ?f ?d ?t ?du ?st ?sm0 ?w0 with _ => _ end =>
      pose proof (monitor_loop_invariant Inv d t du st Hstep f sm0 w0) as H
  end.
  match type of H with ?P -> _ => assert (H0 : P) end.
  { unfold Inv. cbn [dig now after_dig Script.observations].
    pose proof (Ht (probes w)) as Htk.
    split; [reflexivity|]. split; [lra|]. repeat split; constructor. }
  specialize (H H0).
  match goal with
  | |- match ?m with _ => _ end => destruct m as [[[sm|]|e] w']
  end; try exact I.
  destruct H as (_ & _ & S & P & _ & O).
  split; [exact S|]. split; [exact P|].
  exact (at_most_one_report expected_ttl _ S O).
Qed.

Lemma monitor_reports_expiry_at_most_once_witness :
  match Script.monitor_cache_ttl 10 "example.com" 30 None (world0 None steady) with
  | (Returns (Some sm), w') =>
      StronglySorted ten_seconds_apart (Script.observations sm)
      /\ Forall (fun obs => (0 <= Script.elapsed_since_start obs)%Q)
                (Script.observations sm)
      /\ (List.length (List.filter Script.expiry_reported (Script.observations sm))
          <= 1)%nat
  | _ => True
  end.
Proof.
  apply (monitor_reports_expiry_at_most_once 10 "example.com" 30 None
           (world0 None steady)).
  intros k. discriminate.
Defined.

(** X19: a duration that is not positive means no observation. When the
    duration of a monitoring run (the one given, or the expected TTL plus 60
    seconds, which a rule with a TTL of -60 or less makes non-positive) is
    at most zero, the priming probe exits or times out and the clock does not
    run backwards during it, the run returns a summary with no observation
    and no query counted, after the single invocation of [dig] for the
    priming probe. *)
Theorem non_positive_duration_ends_at_once (fuel : nat) (domain : string)
  (expected_ttl : Z) (test_duration : option Q) (w : World) :
  (effective_duration expected_ttl test_duration <= 0)%Q ->
  undisturbed (dig w (probes w)) = true ->
  (0 <= took (dig w (probes w)))%Q ->
  exists sm w',
    Script.monitor_cache_ttl (S fuel) domain expected_ttl test_duration w
    = (Returns (Some sm), w')
    /\ Script.observations sm = []
    /\ Script.query_count sm = 0%nat
    /\ Script.cache_hits sm = 0%nat
    /\ probes w' = S (probes w).
Proof.
  intros Hd Hu Ht.
  unfold Script.monitor_cache_ttl. unfold bind at 1, time_time at 1.
  unfold bind at 1. rewrite query_dns_run.
  destruct (sample_of_run_undisturbed (now w) _ Hu) as [first Hf]. rewrite Hf.
  cbn [Script.monitor_loop]. unfold bind at 1, time_time at 1.
  fold (effective_duration expected_ttl test_duration).
  destruct (Qltb (now (after_dig domain w) - now w)
              (effective_duration expected_ttl test_duration)) eqn:E.
  - apply Qltb_lt in E. cbn [after_dig now] in E. lra.
  - eexists _, _. split; [reflexivity|]. repeat split.
Qed.

Lemma non_positive_duration_ends_at_once_witness :
  exists sm w',
    Script.monitor_cache_ttl 1 "example.com" (-100) None (world0 None steady)
    = (Returns (Some sm), w')
    /\ Script.observations sm = []
    /\ Script.query_count sm = 0%nat
    /\ Script.cache_hits sm = 0%nat
    /\ probes w' = 1%nat.
Proof.
  apply (non_positive_duration_ends_at_once 0 "example.com" (-100) None
           (world0 None steady)).
  - discriminate.
  - reflexivity.
  - discriminate.
Defined.

(** ** The command line *)

(** X20: how [main] reads its command line. With fewer than two words it
    only prints the usage and touches nothing; a missing command means
    [test]; words after the command are ignored; and a command other than
    [test], [ttl] and [compare] (the comparison is exact, so also [TEST])
    makes [main] return without a probe, a write or any output. *)
Theorem main_reads_its_command_line (fuel : nat) (w : World) :
  (forall argv, (List.length argv < 2)%nat ->
                Script.main fuel argv w = (Returns Script.Usage, w))
  /\ (forall prog domain,
         Script.main fuel [prog; domain] w
         = Script.main fuel [prog; domain; "test"%string] w)
  /\ (forall prog domain command more,
         Script.main fuel (prog :: domain :: command :: more) w
         = Script.main fuel [prog; domain; command] w)
  /\ (forall prog domain command,
         command <> "test"%string ->
         command <> "ttl"%string ->
         command <> "compare"%string ->
         Script.main fuel [prog; domain; command] w
         = (Returns Script.NoOutput, w)).
Proof.
  split; [|split; [|split]].
  - intros [|a [|b argv]] H; try reflexivity. simpl in H. lia.
  - reflexivity.
  - reflexivity.
  - intros prog domain command H1 H2 H3. unfold Script.main.
    apply String.eqb_neq in H1, H2, H3. rewrite H1, H2, H3. reflexivity.
Qed.

Lemma main_reads_its_command_line_witness :
  Script.main 0 [ "dnshield_cache_monitor.py"%string ] (world0 None steady)
  = (Returns Script.Usage, world0 None steady)
  /\ Script.main 0 [ "dnshield_cache_monitor.py"; "example.com"; "TEST" ]%string
       (world0 None steady)
     = (Returns Script.NoOutput, world0 None steady).
Proof.
  split.
  - apply (proj1 (main_reads_its_command_line 0 (world0 None steady))).
    simpl. lia.
  - apply (proj2 (proj2 (proj2 (main_reads_its_command_line 0 (world0 None steady)))));
      discriminate.
Defined.

(** X21: the TTL the [ttl] command monitors with. It is the TTL of the rule
    [get_cache_rule] finds, also when that rule has no action; it is 300
    when there is no rule or the rule has no TTL, even if it has an action. *)
Theorem ttl_command_uses_the_rule (fuel : nat) (prog domain : string) (w : World) :
  match Script.main fuel [prog; domain; "ttl"%string] w with
  | (Returns out, _) =>
      exists sm,
        out = Script.Monitored
                match stored_rule domain w with
                | Some {| action := _; ttl := Some n |} => n
                | _ => 300%Z
                end sm
  | _ => True
  end.
Proof.
  rewrite main_ttl.
  destruct (Script.monitor_cache_ttl fuel domain
              (CacheRule.ttl_for_monitor (stored_rule domain w)) None w)
    as [[sm|e] w']; [|exact I].
  exists sm. f_equal.
  destruct (stored_rule domain w) as [[[a|] [n|]]|]; reflexivity.
Qed.

(** ** The statistics *)

Lemma fold_min_spec (t : Q) (ts : list Q) :
  List.In (fold_right Qmin t ts) (t :: ts)
  /\ forall x, List.In x (t :: ts) -> (fold_right Qmin t ts <= x)%Q.
Proof.
  induction ts as [|a ts [IHin IHle]]; simpl.
  - split; [left; reflexivity|]. intros x [<-|[]]. apply Qle_refl.
  - split.
    + assert (E : Qmin a (fold_right Qmin t ts) = a
                  \/ Qmin a (fold_right Qmin t ts) = fold_right Qmin t ts).
      { unfold Qmin at 1 3, GenericMinMax.gmin.
        destruct (a ?= fold_right Qmin t ts)%Q; auto. }
      simpl in IHin. destruct E as [-> | ->]; intuition auto.
    + intros x [<-|[<-|Hx]].
      * eapply Qle_trans; [apply Q.le_min_r | apply IHle; left; reflexivity].
      * apply Q.le_min_l.
      * eapply Qle_trans; [apply Q.le_min_r | apply IHle; right; exact Hx].
Qed.

Lemma fold_max_spec (t : Q) (ts : list Q) :
  List.In (fold_right Qmax t ts) (t :: ts)
  /\ forall x, List.In x (t :: ts) -> (x <= fold_right Qmax t ts)%Q.
Proof.
  induction ts as [|a ts [IHin IHle]]; simpl.
  - split; [left; reflexivity|]. intros x [<-|[]]. apply Qle_refl.
  - split.
    + assert (E : Qmax a (fold_right Qmax t ts) = a
                  \/ Qmax a (fold_right Qmax t ts) = fold_right Qmax t ts).
      { unfold Qmax at 1 3, GenericMinMax.gmax.
        destruct (a ?= fold_right Qmax t ts)%Q; auto. }
      simpl in IHin. destruct E as [-> | ->]; intuition auto.
    + intros x [<-|[<-|Hx]].
      * eapply Qle_trans; [apply IHle; left; reflexivity | apply Q.le_max_r].
      * apply Q.le_max_l.
      * eapply Qle_trans; [apply IHle; right; exact Hx | apply Q.le_max_r].
Qed.

Lemma sum_between (lo hi : Q) (l : list Q) :
  (forall x, List.In x l -> (lo <= x <= hi)%Q) ->
  (lo * inject_Z (Z.of_nat (List.length l)) <= fold_right Qplus 0 l
   /\ fold_right Qplus 0 l <= hi * inject_Z (Z.of_nat (List.length l)))%Q.
Proof.
  induction l as [|a l IH]; intros H.
  - cbn [List.length fold_right]. change (inject_Z (Z.of_nat 0)) with 0%Q.
    split; lra.
  - destruct (IH (fun x Hx => H x (or_intror Hx))) as [IH1 IH2].
    destruct (H a (or_introl eq_refl)) as [Ha1 Ha2].
    cbn [List.length fold_right].
    rewrite Nat2Z.inj_succ, <- Z.add_1_r, inject_Z_plus.
    change (inject_Z 1) with 1%Q. split; lra.
Qed.

Lemma insert_sorted_in (x y : Q) (l : list Q) :
  List.In y (insert_sorted x l) -> y = x \/ List.In y l.
Proof.
  induction l as [|a l IH]; simpl.
  - intros [<-|[]]. left. reflexivity.
  - destruct (Qle_bool x a); simpl.
    + intros [<-|[<-|H]]; auto.
    + intros [<-|H]; [auto|]. destruct (IH H); auto.
Qed.

Lemma insert_sorted_length (x : Q) (l : list Q) :
  List.length (insert_sorted x l) = S (List.length l).
Proof.
  induction l as [|a l IH]; simpl; [reflexivity|].
  destruct (Qle_bool x a); simpl; [reflexivity | rewrite IH; reflexivity].
Qed.

Lemma sorted_in (y : Q) (l : list Q) : List.In y (sorted l) -> List.In y l.
Proof.
  induction l as [|a l IH]; simpl; [tauto|].
  intros H. apply insert_sorted_in in H. destruct H as [->|H]; auto.
Qed.

Lemma sorted_length (l : list Q) : List.length (sorted l) = List.length l.
Proof.
  induction l as [|a l IH]; simpl; [reflexivity|].
  rewrite insert_sorted_length, IH. reflexivity.
Qed.

Lemma median_between (lo hi : Q) (l : list Q) :
  l <> [] ->
  (forall x, List.In x l -> (lo <= x <= hi)%Q) ->
  (lo <= median l <= hi)%Q.
Proof.
  intros Hne H. unfold median.
  assert (Hlen : (0 < List.length (sorted l))%nat).
  { rewrite sorted_length. destruct l; [congruence | simpl; lia]. }
  assert (Hnth : forall k, (k < List.length (sorted l))%nat ->
                           (lo <= nth k (sorted l) 0 <= hi)%Q).
  { intros k Hk. apply H, sorted_in, nth_In, Hk. }
  set (n := List.length (sorted l)) in *.
  assert (Hhalf : (n / 2 < n)%nat) by (apply Nat.div_lt; lia).
  destruct (Nat.odd n).
  - apply Hnth, Hhalf.
  - destruct (Hnth (n / 2)%nat Hhalf) as [A1 A2].
    destruct (Hnth (n / 2 - 1)%nat ltac:(lia)) as [B1 B2].
    split; [apply Qle_shift_div_l | apply Qle_shift_div_r]; lra.
Qed.

(** X22: the statistics lie within the samples. For a non-empty list of
    latencies the minimum and the maximum printed are latencies of the list,
    every latency lies between them, and so do the average and the median;
    for the empty list there are no statistics: the computation raises
    [ValueError]. *)
Theorem statistics_within_range (times : list Q) :
  match statistics_of times with
  | Returns st =>
      times <> []
      /\ List.In (min_time st) times
      /\ List.In (max_time st) times
      /\ (forall t, List.In t times -> (min_time st <= t <= max_time st)%Q)
      /\ (min_time st <= avg_time st <= max_time st)%Q
      /\ (min_time st <= median_time st <= max_time st)%Q
  | Raises e => times = [] /\ e = ValueError
  end.
Proof.
  destruct times as [|t ts]; [split; reflexivity|].
  cbn [statistics_of min_time max_time avg_time median_time].
  destruct (fold_min_spec t ts) as [Hmin_in Hmin].
  destruct (fold_max_spec t ts) as [Hmax_in Hmax].
  assert (Hall : forall x, List.In x (t :: ts) ->
                           (fold_right Qmin t ts <= x <= fold_right Qmax t ts)%Q).
  { intros x Hx. split; [apply Hmin | apply Hmax]; exact Hx. }
  split; [discriminate|]. split; [exact Hmin_in|]. split; [exact Hmax_in|].
  split; [exact Hall|]. split; [|apply median_between; [discriminate | exact Hall]].
  destruct (sum_between _ _ _ Hall) as [S1 S2].
  assert (Hpos : (0 < inject_Z (Z.of_nat (List.length (t :: ts))))%Q).
  { rewrite <- (Zlt_Qlt 0). cbn [List.length]. lia. }
  split; [apply Qle_shift_div_l | apply Qle_shift_div_r]; assumption.
Qed.

(** ** More on the verdict *)

(** X23: when a verdict is printed and when it is the third one. No
    verdict is printed iff there is at most one sample; the verdict is
    [Inconsistent] iff there are at least two samples, not every later
    sample is below half of the first, and not every sample is above 10 ms. *)
Theorem verdict_none_and_inconsistent (times : list Q) :
  (detect_caching times = None <-> (List.length times <= 1)%nat)
  /\ (detect_caching times = Some Inconsistent
      <-> (1 < List.length times)%nat
          /\ ~ later_below_half_first times
          /\ ~ all_above_10 times).
Proof.
  destruct times as [|first_query [|t ts]].
  - split.
    + split; [intros _; simpl; lia | reflexivity].
    + split; [discriminate | intros [H _]; simpl in H; lia].
  - split.
    + split; [intros _; simpl; lia | reflexivity].
    + split; [discriminate | intros [H _]; simpl in H; lia].
  - rewrite detect_caching_long by discriminate.
    rewrite <- subsequent_below_half, <- times_all_above_10.
    destruct (forallb (fun t0 => Qltb t0 (first_query * 0.5)%Q) (t :: ts));
      destruct (forallb (fun t0 => Qltb 10%Q t0) (first_query :: t :: ts));
      simpl List.length; split; split; try discriminate; try lia;
      try (intros (_ & A & B); congruence).
Qed.

(** X24: what [Confirmed] says about the first sample. If the verdict is
    [Confirmed] and no latency is negative, the first latency is positive and
    strictly larger than every later one. *)
Theorem confirmed_first_is_largest (times : list Q) :
  detect_caching times = Some Confirmed ->
  (forall i, (i < List.length times)%nat -> (0 <= nth i times 0)%Q) ->
  (0 < nth 0 times 0)%Q
  /\ forall i, (0 < i < List.length times)%nat ->
               (nth i times 0 < nth 0 times 0)%Q.
Proof.
  intros Hv Hpos.
  destruct times as [|first_query [|t ts]]; try discriminate.
  rewrite detect_caching_long in Hv by discriminate.
  destruct (forallb (fun t0 => Qltb t0 (first_query * 0.5)%Q) (t :: ts)) eqn:E.
  2:{ destruct (forallb _ _) in Hv; discriminate. }
  apply subsequent_below_half in E.
  assert (H0 : (0 < first_query)%Q).
  { pose proof (E 1%nat ltac:(simpl; lia)) as H1.
    pose proof (Hpos 1%nat ltac:(simpl; lia)) as H2. simpl in H1, H2. lra. }
  split; [exact H0|]. intros i Hi.
  pose proof (E i Hi) as H1. simpl (nth 0 _ _) in *. lra.
Qed.

Lemma confirmed_first_is_largest_witness :
  (0 < nth 0 [0.8; 0.3; 0.2; 0.39] 0)%Q
  /\ forall i, (0 < i < List.length [0.8; 0.3; 0.2; 0.39]%Q)%nat ->
               (nth i [0.8; 0.3; 0.2; 0.39] 0 < nth 0 [0.8; 0.3; 0.2; 0.39] 0)%Q.
Proof.
  apply (confirmed_first_is_largest [0.8; 0.3; 0.2; 0.39]%Q).
  - reflexivity.
  - intros [|[|[|[|i]]]] Hi; simpl in *; try discriminate. lia.
Defined.

Lemma forallb_repeat (p : Q -> bool) (v : Q) (n : nat) :
  forallb p (repeat v (S n)) = p v.
Proof.
  induction n as [|n IH]; [simpl; apply andb_true_r|].
  change (repeat v (S (S n))) with (v :: repeat v (S n)).
  cbn [forallb]. rewrite IH. apply andb_diag.
Qed.

(** X25: a steady run is never [Confirmed]. For two or more samples that
    all have the same non-negative latency, the verdict is [NotDetected]
    when that latency is above 10 ms and [Inconsistent] otherwise, however
    small the latency is. *)
Theorem steady_run_is_never_confirmed (v : Q) (n : nat) :
  (0 <= v)%Q ->
  detect_caching (repeat v (S (S n)))
  = Some (if Qltb 10 v then NotDetected else Inconsistent).
Proof.
  intros Hv. change (repeat v (S (S n))) with (v :: repeat v (S n)).
  rewrite detect_caching_long by discriminate.
  change (v :: repeat v (S n)) with (repeat v (S (S n))).
  rewrite !forallb_repeat.
  destruct (Qltb v (v * 0.5)) eqn:E.
  - apply Qltb_lt in E. lra.
  - destruct (Qltb 10 v); reflexivity.
Qed.

Lemma steady_run_is_never_confirmed_witness :
  detect_caching (repeat 0.3%Q 5) = Some Inconsistent.
Proof.
  apply (steady_run_is_never_confirmed 0.3%Q 3). discriminate.
Defined.

(** ** A resolver that never answers *)




(** ** A negative delay *)


